(** * EduDesk: the password-reset endpoints and the browser API helpers

    Two parts of the repository are embedded here.

    - [Server]: the Express handlers [POST /api/forgot-password] and
      [POST /api/reset-password] of the deployment guide, together with the
      [users] and [password_resets] tables they query and the
      [sendResetEmail] helper.
    - [Client]: the classes [AuthAPI], [CalendarAPI], [MoodAPI], [GoalsAPI]
      and [StudyAPI] of [api-config.js].

    Handlers are written in a small state-and-rejection monad: an awaited
    call either yields a value or rejects, and a rejection that nobody
    catches ends the handler. *)

From Stdlib Require Import ZArith NArith List String Ascii Bool Lia.
From stdpp Require Import gmap strings.
Import ListNotations.
Local Open Scope Z_scope.
Local Open Scope string_scope.

(** ** The server: password reset *)

Module Server.

(** *** Tables *)

(** [CREATE TABLE users (id, name, email, password_hash, created_at)]. *)
Record user_row : Type := mk_user {
  u_id : Z;
  u_name : string;
  u_email : string;
  u_password_hash : string;
  u_created_at : Z
}.

(** [CREATE TABLE password_resets (id, email, token UNIQUE, expires_at,
    created_at)].  Timestamps are milliseconds since the epoch. *)
Record reset_row : Type := mk_reset {
  r_id : Z;
  r_email : string;
  r_token : string;
  r_expires_at : Z;
  r_created_at : Z
}.

(** The database: both tables and the sequence behind the [SERIAL] column of
    [password_resets]. *)
Record db : Type := mk_db {
  users : list user_row;
  password_resets : list reset_row;
  password_resets_id_seq : Z
}.

(** A message handed to the mail transporter by [sendResetEmail]. *)
Record mail : Type := mk_mail {
  mail_from : string;
  mail_to : string;
  mail_subject : string;
  mail_reset_link : string
}.

(** What a handler can change: the database and the mails sent so far. *)
Record world : Type := mk_world {
  store : db;
  outbox : list mail
}.

(** *** What a request reads from its environment *)

(** [date_now] is the value of [Date.now()] in the handler, [db_now] the value
    of [NOW()] and [CURRENT_TIMESTAMP] in the database, [randomBytes] the
    output of [crypto.randomBytes], and [fail_at] names the awaited call of
    the handler (numbered from 1 in source order) that rejects for a reason
    outside the handler: the database or the mail service being unavailable. *)
Record env : Type := mk_env {
  date_now : Z;
  db_now : Z;
  randomBytes : nat -> list Byte.byte;
  fail_at : option nat
}.

(** *** Responses *)

Inductive body : Type :=
| Message (message : string)      (* { message: ... } *)
| Error (error : string).         (* { error: ... } *)

Record response : Type := mk_response {
  status : Z;
  resp_body : body
}.

(** [res.json(b)]: status 200 unless [res.status] was called. *)
Definition res_json (b : body) : response := mk_response 200 b.
(** [res.status(c).json(b)]. *)
Definition res_status_json (c : Z) (b : body) : response := mk_response c b.

(** *** The handler monad *)

(** A handler either sends a response ([Returned]) or its promise rejects
    before any response was written ([Rejected]). *)
Inductive outcome (A : Type) : Type :=
| Returned (a : A)
| Rejected.
Arguments Returned {A} a.
Arguments Rejected {A}.

Definition M (A : Type) : Type := world -> outcome A * world.

Definition ret {A : Type} (a : A) : M A := fun w => (Returned a, w).

Definition bind {A B : Type} (m : M A) (k : A -> M B) : M B :=
  fun w =>
    match m w with
    | (Returned a, w') => k a w'
    | (Rejected, w') => (Rejected, w')
    end.

Notation "'let!' x ':=' m 'in' k" := (bind m (fun x => k))
  (at level 10, x name, m at level 100, k at level 200).

(** [await] of the [k]-th awaited call: it rejects, leaving the world as it
    was, when the environment says so, and runs the call otherwise. *)
Definition await {A : Type} (e : env) (k : nat) (call : M A) : M A :=
  fun w =>
    match fail_at e with
    | Some j => if Nat.eqb j k then (Rejected, w) else call w
    | None => call w
    end.

(** *** The queries *)

(** [SELECT * FROM users WHERE email = $1]. *)
Definition select_users_by_email (email : string) : M (list user_row) :=
  fun w => (Returned (List.filter (fun u => String.eqb (u_email u) email)
                                  (users (store w))), w).

(** Does the [UNIQUE] index on [token] already hold this value? *)
Definition token_taken (token : string) (d : db) : bool :=
  existsb (fun r => String.eqb (r_token r) token) (password_resets d).

(** [INSERT INTO password_resets (email, token, expires_at) VALUES ($1, $2,
    $3)].  [id] comes from the sequence, [created_at] from the database
    clock.  A token that is already stored violates the [UNIQUE] constraint:
    the statement fails and no row is added (the sequence value is used up
    all the same). *)
Definition insert_password_reset (e : env) (email token : string)
    (expires_at : Z) : M unit :=
  fun w =>
    let d := store w in
    let id := password_resets_id_seq d in
    if token_taken token d then
      (Rejected,
       mk_world (mk_db (users d) (password_resets d) (id + 1)) (outbox w))
    else
      (Returned tt,
       mk_world
         (mk_db (users d)
                (password_resets d ++
                   [mk_reset id email token expires_at (db_now e)])
                (id + 1))
         (outbox w)).

(** [SELECT * FROM password_resets WHERE token = $1 AND expires_at > NOW()]. *)
Definition select_valid_resets (e : env) (token : string) : M (list reset_row) :=
  fun w =>
    (Returned
       (List.filter
          (fun r => String.eqb (r_token r) token && Z.ltb (db_now e) (r_expires_at r))
          (password_resets (store w))),
     w).

(** [UPDATE users SET password_hash = $1 WHERE email = $2]. *)
Definition set_password_hash (hash email : string) (u : user_row) : user_row :=
  if String.eqb (u_email u) email
  then mk_user (u_id u) (u_name u) (u_email u) hash (u_created_at u)
  else u.

Definition update_password_hash (hash email : string) : M unit :=
  fun w =>
    let d := store w in
    (Returned tt,
     mk_world
       (mk_db (map (set_password_hash hash email) (users d))
              (password_resets d) (password_resets_id_seq d))
       (outbox w)).

(** [DELETE FROM password_resets WHERE token = $1]. *)
Definition delete_resets_by_token (token : string) : M unit :=
  fun w =>
    let d := store w in
    (Returned tt,
     mk_world
       (mk_db (users d)
              (List.filter (fun r => negb (String.eqb (r_token r) token))
                           (password_resets d))
              (password_resets_id_seq d))
       (outbox w)).

(** *** [sendResetEmail] *)

Definition sendResetEmail (email token : string) : M unit :=
  fun w =>
    let resetLink := String.append "https://yourdomain.com/reset-password.html?token=" token in
    let mailOptions :=
      mk_mail "your-email@gmail.com" email
              "Password Reset Request - EduDesk" resetLink in
    (Returned tt, mk_world (store w) (outbox w ++ [mailOptions])).

(** *** [Buffer.toString('hex')] *)

Definition hex_digit (n : N) : ascii :=
  if (n <? 10)%N then ascii_of_N (48 + n) else ascii_of_N (87 + n).

Fixpoint to_hex (bs : list Byte.byte) : string :=
  match bs with
  | [] => EmptyString
  | b :: rest =>
      let n := Byte.to_N b in
      String (hex_digit (n / 16)) (String (hex_digit (n mod 16)) (to_hex rest))
  end.

(** [crypto.randomBytes(32).toString('hex')]. *)
Definition generate_token (e : env) : string := to_hex (randomBytes e 32).

Section Handlers.

(** [bcrypt.hash(password, rounds)], a function of the library. *)
Variable bcrypt_hash : string -> Z -> string.

Definition bcrypt_hash_call (password : string) (rounds : Z) : M string :=
  ret (bcrypt_hash password rounds).

(** [app.post('/api/forgot-password', ...)]. *)
Definition forgot_password (e : env) (email : string) : M response :=
  let! user_rows := await e 1 (select_users_by_email email) in
  if (Nat.eqb (List.length user_rows) 0) then
    ret (res_json (Message "If this email is registered, a reset link will be sent."))
  else
    let token := generate_token e in
    let expiresAt := date_now e + 3600000 in
    let! _ := await e 2 (insert_password_reset e email token expiresAt) in
    let! _ := await e 3 (sendResetEmail email token) in
    ret (res_json (Message "Password reset link has been sent to your email.")).

(** [app.post('/api/reset-password', ...)]. *)
Definition reset_password (e : env) (token password : string) : M response :=
  let! resetRecord := await e 1 (select_valid_resets e token) in
  match resetRecord with
  | [] => ret (res_status_json 400 (Error "Invalid or expired token"))
  | row0 :: _ =>
      let! passwordHash := await e 2 (bcrypt_hash_call password 10) in
      let! _ := await e 3 (update_password_hash passwordHash (r_email row0)) in
      let! _ := await e 4 (delete_resets_by_token token) in
      ret (res_json (Message "Password reset successful"))
  end.

(** *** Sequences of requests *)

Inductive request : Type :=
| ForgotPassword (email : string)
| ResetPassword (token password : string).

Definition handle (e : env) (rq : request) : M response :=
  match rq with
  | ForgotPassword email => forgot_password e email
  | ResetPassword token password => reset_password e token password
  end.

(** The world after serving the requests of [trace] one after the other. *)
Fixpoint serve (trace : list (env * request)) (w : world) : world :=
  match trace with
  | [] => w
  | (e, rq) :: rest => serve rest (snd (handle e rq w))
  end.

End Handlers.

End Server.

(** ** The browser side: [api-config.js] *)

Module Client.

(** *** JavaScript values *)

#[local] Set Warnings "-register-all".

Inductive jsval : Type :=
| JUndefined
| JNull
| JBool (b : bool)
| JNum (n : Z)
| JStr (s : string)
| JArr (items : list jsval)
| JObj (fields : list (string * jsval)).

(** What a [try] block can catch here. *)
Inductive exn : Type :=
| JsError (message : string)   (* throw new Error(message) *)
| TypeError                    (* reading a property of null or undefined *)
| FetchFailed                  (* fetch(...) rejected: no response arrived *)
| BodyUnreadable               (* response.json() rejected *)
| QuotaExceeded.               (* localStorage.setItem refused the write *)

(** The part of the page the helpers read and write: [localStorage] and the
    lines written with [console.error]. *)
Record browser : Type := mk_browser {
  localStorage : gmap string string;
  console : list (string * exn)
}.

(** The second argument of [fetch]. *)
Record request_init : Type := mk_init {
  init_method : option string;
  init_headers : list (string * string);
  init_body : option jsval
}.

(** A response as the helpers use it: [response.ok], and what
    [response.json()] resolves to ([None] when it rejects). *)
Record http_response : Type := mk_http {
  ok : bool;
  json : option jsval
}.

(** *** [API_CONFIG] and [getApiUrl] *)

Definition BASE_URL : string := "http://localhost:5001/api".
Definition SIGNUP : string := "/auth/signup".
Definition LOGIN : string := "/auth/login".
Definition CALENDAR_EVENTS : string := "/calendar/events".
Definition MOOD_ENTRIES : string := "/mood/entries".
Definition GOALS : string := "/goals/goals".
Definition STUDY_SESSIONS : string := "/study/sessions".

Definition getApiUrl (endpoint : string) : string :=
  String.append BASE_URL endpoint.

(** *** Completions: a value, or a thrown exception *)

Inductive completion (A : Type) : Type :=
| Normal (a : A)
| Throw (x : exn).
Arguments Normal {A} a.
Arguments Throw {A} x.

Definition M (A : Type) : Type := browser -> completion A * browser.

Definition ret {A : Type} (a : A) : M A := fun b => (Normal a, b).

Definition throw {A : Type} (x : exn) : M A := fun b => (Throw x, b).

Definition bind {A B : Type} (m : M A) (k : A -> M B) : M B :=
  fun b =>
    match m b with
    | (Normal a, b') => k a b'
    | (Throw x, b') => (Throw x, b')
    end.

(** [try { body } catch (error) { handler }]. *)
Definition try_catch {A : Type} (body : M A) (handler : exn -> M A) : M A :=
  fun b =>
    match body b with
    | (Normal a, b') => (Normal a, b')
    | (Throw x, b') => handler x b'
    end.

Notation "'let!' x ':=' m 'in' k" := (bind m (fun x => k))
  (at level 10, x name, m at level 100, k at level 200).

(** Reading [v.k], for the names read in this file ([access_token], [user],
    [error]): a [TypeError] on [null] and [undefined], the field of an object
    when it has one, [undefined] otherwise. *)
Fixpoint assoc (k : string) (fields : list (string * jsval)) : option jsval :=
  match fields with
  | [] => None
  | (k', v) :: rest => if String.eqb k' k then Some v else assoc k rest
  end.

Definition get_prop (v : jsval) (k : string) : M jsval :=
  match v with
  | JUndefined | JNull => throw TypeError
  | JObj fields =>
      ret (match assoc k fields with Some x => x | None => JUndefined end)
  | _ => ret JUndefined
  end.

(** A parameter with a default value: [undefined] takes the default. *)
Definition default_arg (v dflt : jsval) : jsval :=
  match v with
  | JUndefined => dflt
  | _ => v
  end.

(** [console.error(label, error)]. *)
Definition console_error (label : string) (error : exn) : M unit :=
  fun b => (Normal tt, mk_browser (localStorage b) (console b ++ [(label, error)])).

(** [localStorage.getItem(key)]: the stored string, or [null]. *)
Definition localStorage_getItem (key : string) : M (option string) :=
  fun b => (Normal (localStorage b !! key), b).

Section Helpers.

(** The platform: [fetch] ([None] when the promise rejects),
    [JSON.stringify], the conversion to a string that [setItem] applies to its
    value, and whether the storage refuses a write. *)
Variable fetch : string -> request_init -> option http_response.
Variable JSON_stringify : jsval -> jsval.
Variable ToString : jsval -> string.
Variable storage_full : gmap string string -> string -> string -> bool.

Definition await_fetch (url : string) (init : request_init) : M http_response :=
  match fetch url init with
  | Some response => ret response
  | None => throw FetchFailed
  end.

(** [await response.json()]. *)
Definition await_json (response : http_response) : M jsval :=
  match json response with
  | Some data => ret data
  | None => throw BodyUnreadable
  end.

(** [localStorage.setItem(key, value)]. *)
Definition localStorage_setItem (key : string) (value : jsval) : M unit :=
  fun b =>
    let s := ToString value in
    if storage_full (localStorage b) key s then (Throw QuotaExceeded, b)
    else (Normal tt, mk_browser (<[key := s]> (localStorage b)) (console b)).

Definition network_error : jsval :=
  JObj [("success", JBool false);
        ("error", JStr "Network error. Make sure the Flask backend is running on port 5001.")].

(** *** [AuthAPI] *)

Definition signup (name email password : jsval) : M jsval :=
  try_catch
    (let! response :=
       await_fetch (getApiUrl SIGNUP)
         (mk_init (Some "POST") [("Content-Type", "application/json")]
            (Some (JSON_stringify
                     (JObj [("name", name); ("email", email); ("password", password)])))) in
     let! data := await_json response in
     if ok response then
       let! access_token := get_prop data "access_token" in
       let! _ := localStorage_setItem "access_token" access_token in
       let! user := get_prop data "user" in
       let! _ := localStorage_setItem "user" (JSON_stringify user) in
       ret (JObj [("success", JBool true); ("data", data)])
     else
       let! error := get_prop data "error" in
       ret (JObj [("success", JBool false); ("error", error)]))
    (fun _ => ret network_error).

Definition login (email password : jsval) : M jsval :=
  try_catch
    (let! response :=
       await_fetch (getApiUrl LOGIN)
         (mk_init (Some "POST") [("Content-Type", "application/json")]
            (Some (JSON_stringify
                     (JObj [("email", email); ("password", password)])))) in
     let! data := await_json response in
     if ok response then
       let! access_token := get_prop data "access_token" in
       let! _ := localStorage_setItem "access_token" access_token in
       let! user := get_prop data "user" in
       let! _ := localStorage_setItem "user" (JSON_stringify user) in
       ret (JObj [("success", JBool true); ("data", data)])
     else
       let! error := get_prop data "error" in
       ret (JObj [("success", JBool false); ("error", error)]))
    (fun _ => ret network_error).

Definition getAuthHeaders : M (list (string * string)) :=
  let! token := localStorage_getItem "access_token" in
  ret [("Content-Type", "application/json");
       ("Authorization",
        String.append "Bearer "
          (match token with Some t => t | None => "null" end))].

(** *** The resource helpers

    All eight have one of two shapes: a [GET] whose [catch] returns [[]], or a
    [POST] whose [catch] returns [null]. *)

Definition getEvents : M jsval :=
  try_catch
    (let! headers := getAuthHeaders in
     let! response :=
       await_fetch (getApiUrl CALENDAR_EVENTS) (mk_init None headers None) in
     if ok response then await_json response
     else throw (JsError "Failed to fetch events"))
    (fun error =>
       let! _ := console_error "Error fetching events:" error in
       ret (JArr [])).

Definition createEvent (eventData : jsval) : M jsval :=
  try_catch
    (let! headers := getAuthHeaders in
     let! response :=
       await_fetch (getApiUrl CALENDAR_EVENTS)
         (mk_init (Some "POST") headers (Some (JSON_stringify eventData))) in
     if ok response then await_json response
     else throw (JsError "Failed to create event"))
    (fun error =>
       let! _ := console_error "Error creating event:" error in
       ret JNull).

Definition getMoodEntries : M jsval :=
  try_catch
    (let! headers := getAuthHeaders in
     let! response :=
       await_fetch (getApiUrl MOOD_ENTRIES) (mk_init None headers None) in
     if ok response then await_json response
     else throw (JsError "Failed to fetch mood entries"))
    (fun error =>
       let! _ := console_error "Error fetching mood entries:" error in
       ret (JArr [])).

Definition createMoodEntry (mood moodLevel notes : jsval) : M jsval :=
  let notes := default_arg notes (JStr "") in
  try_catch
    (let! headers := getAuthHeaders in
     let! response :=
       await_fetch (getApiUrl MOOD_ENTRIES)
         (mk_init (Some "POST") headers
            (Some (JSON_stringify
                     (JObj [("mood", mood); ("mood_level", moodLevel);
                            ("notes", notes)])))) in
     if ok response then await_json response
     else throw (JsError "Failed to create mood entry"))
    (fun error =>
       let! _ := console_error "Error creating mood entry:" error in
       ret JNull).

Definition getGoals : M jsval :=
  try_catch
    (let! headers := getAuthHeaders in
     let! response :=
       await_fetch (getApiUrl GOALS) (mk_init None headers None) in
     if ok response then await_json response
     else throw (JsError "Failed to fetch goals"))
    (fun error =>
       let! _ := console_error "Error fetching goals:" error in
       ret (JArr [])).

Definition createGoal (goalData : jsval) : M jsval :=
  try_catch
    (let! headers := getAuthHeaders in
     let! response :=
       await_fetch (getApiUrl GOALS)
         (mk_init (Some "POST") headers (Some (JSON_stringify goalData))) in
     if ok response then await_json response
     else throw (JsError "Failed to create goal"))
    (fun error =>
       let! _ := console_error "Error creating goal:" error in
       ret JNull).

Definition getStudySessions : M jsval :=
  try_catch
    (let! headers := getAuthHeaders in
     let! response :=
       await_fetch (getApiUrl STUDY_SESSIONS) (mk_init None headers None) in
     if ok response then await_json response
     else throw (JsError "Failed to fetch study sessions"))
    (fun error =>
       let! _ := console_error "Error fetching study sessions:" error in
       ret (JArr [])).

Definition createStudySession (duration subject notes sessionType : jsval) : M jsval :=
  let notes := default_arg notes (JStr "") in
  let sessionType := default_arg sessionType (JStr "pomodoro") in
  try_catch
    (let! headers := getAuthHeaders in
     let! response :=
       await_fetch (getApiUrl STUDY_SESSIONS)
         (mk_init (Some "POST") headers
            (Some (JSON_stringify
                     (JObj [("duration", duration); ("subject", subject);
                            ("notes", notes); ("session_type", sessionType)])))) in
     if ok response then await_json response
     else throw (JsError "Failed to create study session"))
    (fun error =>
       let! _ := console_error "Error creating study session:" error in
       ret JNull).

End Helpers.

End Client.

(** ** Notions used to state the properties of the server *)

Module ServerNotions.
Import Server.

(** The two responses of [reset_password]. *)
Definition invalid_or_expired : response :=
  res_status_json 400 (Error "Invalid or expired token").
Definition reset_successful : response :=
  res_json (Message "Password reset successful").

(** The rows the lookup of [reset_password] selects. *)
Definition valid_rows (e : env) (token : string) (w : world) : list reset_row :=
  List.filter
    (fun r => String.eqb (r_token r) token && Z.ltb (db_now e) (r_expires_at r))
    (password_resets (store w)).

(** The table once the rows of [token] are deleted. *)
Definition without_token (token : string) (rows : list reset_row) : list reset_row :=
  List.filter (fun r => negb (String.eqb (r_token r) token)) rows.

(** The row [forgot_password] inserts. *)
Definition issued_row (e : env) (email : string) (w : world) : reset_row :=
  mk_reset (password_resets_id_seq (store w)) email (generate_token e)
           (date_now e + 3600000) (db_now e).

(** No later request of the trace mints [token] again. *)
Definition never_reissued (token : string) (trace : list (env * request)) : Prop :=
  Forall (fun '(e, rq) =>
            match rq with
            | ForgotPassword _ => generate_token e <> token
            | ResetPassword _ _ => True
            end) trace.

(** Does the [users] table hold an account with this email? *)
Definition registered (email : string) (w : world) : bool :=
  existsb (fun u => String.eqb (u_email u) email) (users (store w)).

(** The mail [sendResetEmail] hands over for a token. *)
Definition reset_mail (email token : string) : mail :=
  mk_mail "your-email@gmail.com" email "Password Reset Request - EduDesk"
          (String.append "https://yourdomain.com/reset-password.html?token=" token).

(** The two answers of [forgot_password]. *)
Definition generic_notice : response :=
  res_json (Message "If this email is registered, a reset link will be sent.").
Definition link_sent : response :=
  res_json (Message "Password reset link has been sent to your email.").

(** No two rows of [password_resets] hold the same token. *)
Definition unique_tokens (w : world) : Prop :=
  List.NoDup (map r_token (password_resets (store w))).

(** No row of [password_resets] holds [token]. *)
Definition absent (token : string) (w : world) : Prop :=
  forall r, In r (password_resets (store w)) -> r_token r <> token.

Section Effects.

Variable bcrypt_hash : string -> Z -> string.

(** The world once the credential is overwritten. *)
Definition after_update (password : string) (row0 : reset_row) (w : world) : world :=
  mk_world
    (mk_db (map (set_password_hash (bcrypt_hash password 10) (r_email row0))
                (users (store w)))
           (password_resets (store w))
           (password_resets_id_seq (store w)))
    (outbox w).

(** The world once the token is deleted as well. *)
Definition after_delete (token password : string) (row0 : reset_row) (w : world) : world :=
  mk_world
    (mk_db (map (set_password_hash (bcrypt_hash password 10) (r_email row0))
                (users (store w)))
           (without_token token (password_resets (store w)))
           (password_resets_id_seq (store w)))
    (outbox w).

End Effects.

End ServerNotions.

(** ** Sample data for the worked examples *)

Module ServerSamples.
Import Server.

Definition sample_hash : string -> Z -> string :=
  fun password _ => String.append "bcrypt:" password.

Definition zero_bytes (n : nat) : list Byte.byte := repeat Byte.x00 n.
Definition ff_bytes (n : nat) : list Byte.byte := repeat Byte.xff n.

(** The token made from thirty-two zero bytes. *)
Definition token0 : string :=
  "0000000000000000000000000000000000000000000000000000000000000000".

Definition alice : user_row :=
  mk_user 1 "Alice" "alice@example.com" "bcrypt:OldPass1" 0.

(** A reset row for Alice that expires at time 3601000. *)
Definition alice_reset : reset_row :=
  mk_reset 1 "alice@example.com" token0 3601000 1000.

(** A reset row whose account is gone. *)
Definition orphan_reset : reset_row :=
  mk_reset 1 "gone@example.com" token0 3601000 1000.

(** Alice is registered, no reset is pending. *)
Definition w_registered : world := mk_world (mk_db [alice] [] 1) [].
(** Nobody is registered. *)
Definition w_unregistered : world := mk_world (mk_db [] [] 1) [].
(** Alice is registered and holds a pending reset. *)
Definition w_pending : world := mk_world (mk_db [alice] [alice_reset] 2) [].
(** A pending reset whose account was deleted. *)
Definition w_orphan : world := mk_world (mk_db [] [orphan_reset] 2) [].

(** Environments: a request at time [now] with no outside failure, and one
    whose [k]-th awaited call rejects. *)
Definition env_at (now : Z) : env := mk_env now now zero_bytes None.
Definition env_failing (now : Z) (k : nat) : env := mk_env now now zero_bytes (Some k).
Definition env_ff (now : Z) : env := mk_env now now ff_bytes None.


(** After a reset: another request for a link, then two more attempts with
    the used token. *)
Definition later_requests : list (env * request) :=
  [(env_ff 2500, ForgotPassword "alice@example.com");
   (env_at 2600, ResetPassword token0 "Another1");
   (env_failing 2700 4, ResetPassword token0 "Another2")].

End ServerSamples.

(** ** Notions used to state the properties of the browser helpers *)

Module ClientNotions.
Import Client.

(** [null] and [undefined], whose properties cannot be read. *)
Definition nullish (v : jsval) : bool :=
  match v with
  | JUndefined | JNull => true
  | _ => false
  end.

(** The value of [v.k] when [v] is neither [null] nor [undefined]. *)
Definition prop (v : jsval) (k : string) : jsval :=
  match v with
  | JObj fields => match assoc k fields with Some x => x | None => JUndefined end
  | _ => JUndefined
  end.

(** The headers [getAuthHeaders] builds in a given page. *)
Definition auth_headers (b : browser) : list (string * string) :=
  [("Content-Type", "application/json");
   ("Authorization",
    String.append "Bearer "
      (match localStorage b !! "access_token" with Some t => t | None => "null" end))].

(** [{ success: false, error }] and [{ success: true, data }]. *)
Definition failure_of (error : jsval) : jsval :=
  JObj [("success", JBool false); ("error", error)].
Definition success_of (data : jsval) : jsval :=
  JObj [("success", JBool true); ("data", data)].

Section Reports.

Variable ToString : jsval -> string.
Variable JSON_stringify : jsval -> jsval.
Variable storage_full : gmap string string -> string -> string -> bool.

(** The strings [signup] and [login] store for a response body. *)
Definition token_string (data : jsval) : string :=
  ToString (prop data "access_token").
Definition user_string (data : jsval) : string :=
  ToString (JSON_stringify (prop data "user")).

(** The page once both items are stored. *)
Definition signed_in (data : jsval) (b : browser) : browser :=
  mk_browser
    (<["user" := user_string data]>
       (<["access_token" := token_string data]> (localStorage b)))
    (console b).

(** The storage takes both writes. *)
Definition storage_accepts (data : jsval) (b : browser) : Prop :=
  storage_full (localStorage b) "access_token" (token_string data) = false /\
  storage_full (<["access_token" := token_string data]> (localStorage b))
               "user" (user_string data) = false.

(** What [signup] and [login] report, by what [fetch] gave them: [res] is the
    result of the [fetch] call, [b] the page before and [out] the completion
    of the helper with the page after. *)
Definition reports (res : option http_response) (b : browser)
    (out : completion jsval * browser) : Prop :=
  (exists v b', out = (Normal v, b')) /\
  (res = None -> out = (Normal network_error, b)) /\
  (forall r, res = Some r -> json r = None -> out = (Normal network_error, b)) /\
  (forall r data, res = Some r -> json r = Some data -> nullish data = true ->
                  out = (Normal network_error, b)) /\
  (forall r data, res = Some r -> json r = Some data -> nullish data = false ->
                  ok r = false ->
                  out = (Normal (failure_of (prop data "error")), b)) /\
  (forall r data, res = Some r -> json r = Some data -> nullish data = false ->
                  ok r = true -> storage_accepts data b ->
                  out = (Normal (success_of data), signed_in data b)).

(** What [signup] and [login] report for an OK response with a readable
    body when the storage refuses a write: the network error; after a
    refused first write nothing is stored, after a refused second write the
    token stays stored. *)
Definition refused_write (res : option http_response) (b : browser)
    (out : completion jsval * browser) : Prop :=
  forall r data,
    res = Some r -> json r = Some data -> nullish data = false -> ok r = true ->
    (storage_full (localStorage b) "access_token" (token_string data) = true ->
     out = (Normal network_error, b)) /\
    (storage_full (localStorage b) "access_token" (token_string data) = false ->
     storage_full (<["access_token" := token_string data]> (localStorage b))
                  "user" (user_string data) = true ->
     out = (Normal network_error,
            mk_browser (<["access_token" := token_string data]> (localStorage b))
                       (console b))).

End Reports.

(** What a resource helper returns, by what [fetch] gave it: always a value,
    the body of an OK response that can be read, and the fallback [dflt] when
    no response arrived, when the response is not OK, and when its body
    cannot be read; [localStorage] is left as it was. *)
Definition falls_back (dflt : jsval) (res : option http_response) (b : browser)
    (out : completion jsval * browser) : Prop :=
  (exists v b', out = (Normal v, b')) /\
  localStorage (snd out) = localStorage b /\
  (res = None -> fst out = Normal dflt) /\
  (forall r, res = Some r -> ok r = false -> fst out = Normal dflt) /\
  (forall r, res = Some r -> json r = None -> fst out = Normal dflt) /\
  (forall r data, res = Some r -> ok r = true -> json r = Some data ->
                  out = (Normal data, b)).

End ClientNotions.

Module ClientSamples.
Import Client.

Definition sample_ToString (v : jsval) : string :=
  match v with
  | JStr s => s
  | JUndefined => "undefined"
  | JNull => "null"
  | _ => "[object]"
  end.

Definition sample_stringify (v : jsval) : jsval :=
  match v with
  | JUndefined => JUndefined
  | JStr s => JStr (String.append "json:" s)
  | _ => JStr "{}"
  end.

Definition roomy : gmap string string -> string -> string -> bool :=
  fun _ _ _ => false.

(** A backend that is down, one that refuses the credentials, and one that
    accepts them. *)
Definition fetch_down : string -> request_init -> option http_response :=
  fun _ _ => None.
Definition refusal_body : jsval := JObj [("error", JStr "Invalid credentials")].
Definition fetch_refusing : string -> request_init -> option http_response :=
  fun _ _ => Some (mk_http false (Some refusal_body)).
Definition accepted_body : jsval :=
  JObj [("access_token", JStr "jwt-1"); ("user", JStr "alice")].
Definition fetch_accepting : string -> request_init -> option http_response :=
  fun _ _ => Some (mk_http true (Some accepted_body)).

Definition empty_page : browser := mk_browser ∅ [].

(** A backend that answers OK with the body [null], and a gateway that
    answers with a status that is not OK and a body that is not JSON. *)
Definition fetch_ok_null : string -> request_init -> option http_response :=
  fun _ _ => Some (mk_http true (Some JNull)).
Definition fetch_bad_gateway : string -> request_init -> option http_response :=
  fun _ _ => Some (mk_http false None).

End ClientSamples.

(** ** The rest of the browser side

    [Page]: the session helpers of [AuthAPI] ([isLoggedIn], [logout],
    [getCurrentUser]) and what they need of the page around them.
    [FrontendExample]: the integration example, with its own base URL, its
    further resource helpers, the two form handlers and the page guard. *)

Module Page.
Import Client.

#[local] Set Warnings "-notation-overridden".

(** A submit button, as far as the handlers use it. *)
Record button : Type := mk_button {
  textContent : string;
  disabled : bool
}.

(** The tab a script runs in: the [browser] part of [Client], the [value] of
    the inputs by id, the buttons by selector, the arguments [alert] was
    called with, [window.location.pathname], the last value assigned to
    [window.location.href] and whether [preventDefault] was called on the
    event being handled. *)
Record tab : Type := mk_tab {
  tab_browser : browser;
  inputs : gmap string string;
  buttons : gmap string button;
  alerts : list jsval;
  pathname : string;
  href_assigned : option string;
  default_prevented : bool
}.

Definition T (A : Type) : Type := tab -> completion A * tab.

Definition ret {A : Type} (a : A) : T A := fun t => (Normal a, t).

Definition throw {A : Type} (x : exn) : T A := fun t => (Throw x, t).

Definition bind {A B : Type} (m : T A) (k : A -> T B) : T B :=
  fun t =>
    match m t with
    | (Normal a, t') => k a t'
    | (Throw x, t') => (Throw x, t')
    end.

Notation "'let!' x ':=' m 'in' k" := (bind m (fun x => k))
  (at level 10, x name, m at level 100, k at level 200).

(** A computation of [Client] run in the tab. *)
Definition lift {A : Type} (m : M A) : T A :=
  fun t =>
    match m (tab_browser t) with
    | (c, b') =>
        (c, mk_tab b' (inputs t) (buttons t) (alerts t) (pathname t)
                   (href_assigned t) (default_prevented t))
    end.

(** [try { body } catch (error) { handler }]. *)
Definition try_catch {A : Type} (body : T A) (handler : exn -> T A) : T A :=
  fun t =>
    match body t with
    | (Normal a, t') => (Normal a, t')
    | (Throw x, t') => handler x t'
    end.

(** [... finally { fin }]: [fin] runs whatever [body] did; the completion of
    [body] stands unless [fin] throws. *)
Definition finally {A : Type} (body : T A) (fin : T unit) : T A :=
  fun t =>
    match body t with
    | (c, t') =>
        match fin t' with
        | (Normal _, t'') => (c, t'')
        | (Throw x, t'') => (Throw x, t'')
        end
    end.

(** Truthiness: [undefined], [null], [false], [0] and the empty string are
    falsy. *)
Definition truthy (v : jsval) : bool :=
  match v with
  | JUndefined | JNull => false
  | JBool b => b
  | JNum n => negb (Z.eqb n 0)
  | JStr s => negb (String.eqb s "")
  | JArr _ | JObj _ => true
  end.

(** [e.preventDefault()]. *)
Definition preventDefault : T unit :=
  fun t => (Normal tt, mk_tab (tab_browser t) (inputs t) (buttons t) (alerts t)
                              (pathname t) (href_assigned t) true).

(** [document.getElementById(id).value]: a [TypeError] when the page has no
    such element. *)
Definition element_value (id : string) : T string :=
  fun t =>
    match inputs t !! id with
    | Some v => (Normal v, t)
    | None => (Throw TypeError, t)
    end.

(** [submitBtn.textContent] for [submitBtn = document.querySelector(sel)]: a
    [TypeError] when the selector matches nothing. *)
Definition get_textContent (sel : string) : T string :=
  fun t =>
    match buttons t !! sel with
    | Some btn => (Normal (textContent btn), t)
    | None => (Throw TypeError, t)
    end.

Definition update_button (f : button -> button) (sel : string) : T unit :=
  fun t =>
    match buttons t !! sel with
    | Some btn =>
        (Normal tt, mk_tab (tab_browser t) (inputs t) (<[sel := f btn]> (buttons t))
                           (alerts t) (pathname t) (href_assigned t)
                           (default_prevented t))
    | None => (Throw TypeError, t)
    end.

(** [submitBtn.textContent = text]. *)
Definition set_textContent (sel text : string) : T unit :=
  update_button (fun btn => mk_button text (disabled btn)) sel.

(** [submitBtn.disabled = flag]. *)
Definition set_disabled (sel : string) (flag : bool) : T unit :=
  update_button (fun btn => mk_button (textContent btn) flag) sel.

(** [alert(v)]. *)
Definition alert (v : jsval) : T unit :=
  fun t => (Normal tt, mk_tab (tab_browser t) (inputs t) (buttons t)
                              (alerts t ++ [v])%list (pathname t)
                              (href_assigned t) (default_prevented t)).

(** [window.location.href = url]. *)
Definition set_href (url : string) : T unit :=
  fun t => (Normal tt, mk_tab (tab_browser t) (inputs t) (buttons t) (alerts t)
                              (pathname t) (Some url) (default_prevented t)).


(** *** [AuthAPI.isLoggedIn], [AuthAPI.logout], [AuthAPI.getCurrentUser] *)

(** [!!localStorage.getItem('access_token')]: [null] and the empty string are
    falsy. *)
Definition isLoggedIn : M bool :=
  Client.bind (localStorage_getItem "access_token") (fun token =>
  Client.ret (match token with
              | Some t => negb (String.eqb t "")
              | None => false
              end)).


Section Parse.

(** [JSON.parse]; [None] when it throws a [SyntaxError]. *)
Variable JSON_parse : string -> option jsval.

(** [getCurrentUser]: [Some v] when it returns [v], [None] when the
    [SyntaxError] of [JSON.parse] leaves the function. *)
Definition getCurrentUser (b : browser) : option jsval :=
  match localStorage b !! "user" with
  | Some userStr =>
      if negb (String.eqb userStr "") then JSON_parse userStr else Some JNull
  | None => Some JNull
  end.

End Parse.

End Page.

Module FrontendExample.
#[local] Set Warnings "-notation-overridden".
Import Client Page.

Definition API_BASE_URL : string := "http://localhost:5000/api".

Definition network_error : jsval :=
  JObj [("success", JBool false); ("error", JStr "Network error")].

(** [["dashboard.html", "calendar.html", "mood-tracker.html", "goals.html"]]. *)
Definition protectedPages : list string :=
  ["dashboard.html"; "calendar.html"; "mood-tracker.html"; "goals.html"].

(** [s.split(sep)] for a separator of one character. *)
Fixpoint split (sep : ascii) (s : string) : list string :=
  match s with
  | EmptyString => [EmptyString]
  | String c rest =>
      if Ascii.eqb c sep then EmptyString :: split sep rest
      else
        match split sep rest with
        | piece :: pieces => String c piece :: pieces
        | [] => [String c EmptyString]
        end
  end.

(** [array.pop()]: the last element, [undefined] ([None]) on an empty
    array. *)
Fixpoint pop (pieces : list string) : option string :=
  match pieces with
  | [] => None
  | [piece] => Some piece
  | _ :: rest => pop rest
  end.

(** [array.includes(x)]. *)
Definition includes (pages : list string) (x : option string) : bool :=
  match x with
  | Some page => existsb (String.eqb page) pages
  | None => false
  end.

(** The [DOMContentLoaded] listener that guards the protected pages. *)
Definition auth_guard : T unit :=
  fun t =>
    let currentPage := pop (split "/"%char (pathname t)) in
    (if includes protectedPages currentPage
     then
       let! loggedIn := lift isLoggedIn in
       if negb loggedIn then set_href "login.html" else ret tt
     else ret tt) t.

Section Helpers.

Variable fetch : string -> request_init -> option http_response.
Variable JSON_stringify : jsval -> jsval.
Variable ToString : jsval -> string.
Variable storage_full : gmap string string -> string -> string -> bool.
(** [String.prototype.trim]. *)
Variable trim : string -> string.

Definition getAuthHeaders : M (list (string * string)) :=
  Client.bind (localStorage_getItem "access_token") (fun token =>
  Client.ret [("Content-Type", "application/json");
              ("Authorization",
               String.append "Bearer "
                 (match token with Some t => t | None => "null" end))]).

(** *** [AuthAPI.signup] and [AuthAPI.login] of the example *)

Definition signup (name email password : jsval) : M jsval :=
  Client.try_catch
    (Client.bind
       (await_fetch fetch (String.append API_BASE_URL "/auth/signup")
          (mk_init (Some "POST") [("Content-Type", "application/json")]
             (Some (JSON_stringify
                      (JObj [("name", name); ("email", email);
                             ("password", password)])))))
       (fun response =>
     Client.bind (await_json response) (fun data =>
     if ok response then
       Client.bind (get_prop data "access_token") (fun access_token =>
       Client.bind (localStorage_setItem ToString storage_full "access_token" access_token) (fun _ =>
       Client.bind (get_prop data "user") (fun user =>
       Client.bind (localStorage_setItem ToString storage_full "user" (JSON_stringify user)) (fun _ =>
       Client.ret (JObj [("success", JBool true); ("data", data)])))))
     else
       Client.bind (get_prop data "error") (fun error =>
       Client.ret (JObj [("success", JBool false); ("error", error)])))))
    (fun _ => Client.ret network_error).

Definition login (email password : jsval) : M jsval :=
  Client.try_catch
    (Client.bind
       (await_fetch fetch (String.append API_BASE_URL "/auth/login")
          (mk_init (Some "POST") [("Content-Type", "application/json")]
             (Some (JSON_stringify
                      (JObj [("email", email); ("password", password)])))))
       (fun response =>
     Client.bind (await_json response) (fun data =>
     if ok response then
       Client.bind (get_prop data "access_token") (fun access_token =>
       Client.bind (localStorage_setItem ToString storage_full "access_token" access_token) (fun _ =>
       Client.bind (get_prop data "user") (fun user =>
       Client.bind (localStorage_setItem ToString storage_full "user" (JSON_stringify user)) (fun _ =>
       Client.ret (JObj [("success", JBool true); ("data", data)])))))
     else
       Client.bind (get_prop data "error") (fun error =>
       Client.ret (JObj [("success", JBool false); ("error", error)])))))
    (fun _ => Client.ret network_error).

(** *** The further resource helpers *)

Definition updateEvent (eventId eventData : jsval) : M jsval :=
  Client.try_catch
    (Client.bind getAuthHeaders (fun headers =>
     Client.bind
       (await_fetch fetch
          (String.append API_BASE_URL
             (String.append "/calendar/events/" (ToString eventId)))
          (mk_init (Some "PUT") headers (Some (JSON_stringify eventData))))
       (fun response =>
     if ok response then await_json response
     else Client.throw (JsError "Failed to update event"))))
    (fun error =>
       Client.bind (console_error "Error updating event:" error) (fun _ =>
       Client.ret JNull)).

Definition deleteEvent (eventId : jsval) : M jsval :=
  Client.try_catch
    (Client.bind getAuthHeaders (fun headers =>
     Client.bind
       (await_fetch fetch
          (String.append API_BASE_URL
             (String.append "/calendar/events/" (ToString eventId)))
          (mk_init (Some "DELETE") headers None))
       (fun response => Client.ret (JBool (ok response)))))
    (fun error =>
       Client.bind (console_error "Error deleting event:" error) (fun _ =>
       Client.ret (JBool false))).

Definition getMoodAnalytics : M jsval :=
  Client.try_catch
    (Client.bind getAuthHeaders (fun headers =>
     Client.bind
       (await_fetch fetch (String.append API_BASE_URL "/mood/analytics")
          (mk_init None headers None))
       (fun response =>
     if ok response then await_json response
     else Client.throw (JsError "Failed to fetch mood analytics"))))
    (fun error =>
       Client.bind (console_error "Error fetching mood analytics:" error) (fun _ =>
       Client.ret JNull)).

Definition updateGoalProgress (goalId progress : jsval) : M jsval :=
  Client.try_catch
    (Client.bind getAuthHeaders (fun headers =>
     Client.bind
       (await_fetch fetch
          (String.append API_BASE_URL
             (String.append "/goals/goals/"
                (String.append (ToString goalId) "/progress")))
          (mk_init (Some "PUT") headers
             (Some (JSON_stringify (JObj [("progress", progress)])))))
       (fun response =>
     if ok response then await_json response
     else Client.throw (JsError "Failed to update goal progress"))))
    (fun error =>
       Client.bind (console_error "Error updating goal progress:" error) (fun _ =>
       Client.ret JNull)).

Definition getStudyAnalytics : M jsval :=
  Client.try_catch
    (Client.bind getAuthHeaders (fun headers =>
     Client.bind
       (await_fetch fetch (String.append API_BASE_URL "/study/analytics")
          (mk_init None headers None))
       (fun response =>
     if ok response then await_json response
     else Client.throw (JsError "Failed to fetch study analytics"))))
    (fun error =>
       Client.bind (console_error "Error fetching study analytics:" error) (fun _ =>
       Client.ret JNull)).

(** *** The form handlers *)

(** The [submit] listener of [.signup-form]. *)
Definition signup_submit : T unit :=
  let! _ := preventDefault in
  let! name_value := element_value "name" in
  let name := trim name_value in
  let! email_value := element_value "email" in
  let email := trim email_value in
  let! password := element_value "password" in
  if negb (truthy (JStr name)) || negb (truthy (JStr email))
     || negb (truthy (JStr password))
  then alert (JStr "Please fill in all fields.")
  else
    let! originalText := get_textContent ".signup-btn" in
    let! _ := set_textContent ".signup-btn" "Creating Account..." in
    let! _ := set_disabled ".signup-btn" true in
    finally
      (try_catch
         (let! result := lift (signup (JStr name) (JStr email) (JStr password)) in
          let! success := lift (get_prop result "success") in
          if truthy success then set_href "dashboard.html"
          else
            let! error := lift (get_prop result "error") in
            alert (if truthy error then error
                   else JStr "Signup failed. Please try again."))
         (fun _ => alert (JStr "An error occurred. Please try again.")))
      (let! _ := set_textContent ".signup-btn" originalText in
       set_disabled ".signup-btn" false).

(** The [submit] listener of [.login-form]. *)
Definition login_submit : T unit :=
  let! _ := preventDefault in
  let! email_value := element_value "email" in
  let email := trim email_value in
  let! password := element_value "password" in
  if negb (truthy (JStr email)) || negb (truthy (JStr password))
  then alert (JStr "Please fill in all fields.")
  else
    let! originalText := get_textContent ".login-btn" in
    let! _ := set_textContent ".login-btn" "Signing In..." in
    let! _ := set_disabled ".login-btn" true in
    finally
      (try_catch
         (let! result := lift (login (JStr email) (JStr password)) in
          let! success := lift (get_prop result "success") in
          if truthy success then set_href "dashboard.html"
          else
            let! error := lift (get_prop result "error") in
            alert (if truthy error then error
                   else JStr "Login failed. Please check your credentials."))
         (fun _ => alert (JStr "An error occurred. Please try again.")))
      (let! _ := set_textContent ".login-btn" originalText in
       set_disabled ".login-btn" false).

End Helpers.

End FrontendExample.

(** ** Notions and sample data for the further properties *)

Module MoreNotions.
#[local] Set Warnings "-notation-overridden".
Import Client ClientNotions Page.

(** Is a non-empty [access_token] stored? *)
Definition has_token (b : browser) : bool :=
  match localStorage b !! "access_token" with
  | Some t => negb (String.eqb t "")
  | None => false
  end.

(** What a resource helper writes with [console.error], by what [fetch] gave
    it: nothing when the body of an OK response is returned, and otherwise
    one line, under the helper's [label], with the cause: the rejection of
    [fetch], the [Error] the helper throws itself for a response that is not
    OK (message [msg]), or the rejection of [response.json()]. *)
Definition logs (label msg : string) (res : option http_response) (b : browser)
    (out : completion jsval * browser) : Prop :=
  (res = None -> console (snd out) = (console b ++ [(label, FetchFailed)])%list) /\
  (forall r, res = Some r -> ok r = false ->
             console (snd out) = (console b ++ [(label, JsError msg)])%list) /\
  (forall r, res = Some r -> ok r = true -> json r = None ->
             console (snd out) = (console b ++ [(label, BodyUnreadable)])%list) /\
  (forall r data, res = Some r -> ok r = true -> json r = Some data ->
                  console (snd out) = console b).

(** The tab with another [browser] part. *)
Definition with_browser (b : browser) (t : tab) : tab :=
  mk_tab b (inputs t) (buttons t) (alerts t) (pathname t) (href_assigned t)
         (default_prevented t).

(** The tab once a submit handler that got past its checks has finished: the
    page storage as the request left it, the button with its text put back
    and enabled, and either the move to the dashboard or one more alert. *)
Definition submitted (sel : string) (btn : button) (b' : browser)
    (result : jsval) (fallback : string) (t : tab) : tab :=
  mk_tab b' (inputs t)
         (<[sel := mk_button (textContent btn) false]> (buttons t))
         (if truthy (prop result "success") then alerts t
          else (alerts t ++ [if truthy (prop result "error")
                             then prop result "error"
                             else JStr fallback])%list)
         (pathname t)
         (if truthy (prop result "success") then Some "dashboard.html"
          else href_assigned t)
         true.

End MoreNotions.

Module MoreSamples.
#[local] Set Warnings "-notation-overridden".
Import Server Client Page.

(** A second pending reset of Alice, with another token. *)
Definition token1 : string :=
  "1111111111111111111111111111111111111111111111111111111111111111".
Definition alice_second_reset : reset_row :=
  mk_reset 2 "alice@example.com" token1 3605000 5000.
Definition w_two_pending : world :=
  mk_world (mk_db [ServerSamples.alice]
                  [ServerSamples.alice_reset; alice_second_reset] 3) [].

(** A storage that takes the token but has no room left for the user. *)
Definition tight : gmap string string -> string -> string -> bool :=
  fun _ key _ => String.eqb key "user".

Definition sample_parse (s : string) : option jsval :=
  if String.eqb s "json:alice" then Some (JStr "alice") else None.

(** [trim] for strings padded with spaces. *)
Fixpoint drop_spaces (s : string) : string :=
  match s with
  | String " "%char rest => drop_spaces rest
  | _ => s
  end.
Definition rev_string (s : string) : string :=
  string_of_list_ascii (rev (list_ascii_of_string s)).
Definition sample_trim (s : string) : string :=
  rev_string (drop_spaces (rev_string (drop_spaces s))).

(** A page with a session and some other item in its storage. *)
Definition session_page : browser :=
  mk_browser (<["theme" := "dark"]> (<["user" := "json:alice"]>
                (<["access_token" := "jwt-1"]> ∅))) [].

Definition signup_button : button := mk_button "Create Account" false.
Definition login_button : button := mk_button "Sign In" false.

(** The login page, filled in, and the same with a blank password. *)
Definition login_tab : tab :=
  mk_tab ClientSamples.empty_page
         (<["password" := "Abcdefg1"]> (<["email" := " alice@example.com "]> ∅))
         (<[".login-btn" := login_button]> ∅)
         [] "/login.html" None false.
Definition login_tab_blank : tab :=
  mk_tab ClientSamples.empty_page
         (<["password" := ""]> (<["email" := "alice@example.com"]> ∅))
         (<[".login-btn" := login_button]> ∅)
         [] "/login.html" None false.
Definition signup_tab : tab :=
  mk_tab ClientSamples.empty_page
         (<["password" := "Abcdefg1"]>
            (<["email" := "alice@example.com"]> (<["name" := "Alice"]> ∅)))
         (<[".signup-btn" := signup_button]> ∅)
         [] "/signup.html" None false.

(** A visitor without a session on the dashboard. *)
Definition dashboard_tab : tab :=
  mk_tab ClientSamples.empty_page ∅ ∅ [] "/app/dashboard.html" None false.

End MoreSamples.

(** ** Properties of the password-reset handlers *)

Module ServerProofs.
Import Server ServerNotions.

(** *** [await] *)

Lemma await_no_failure {A : Type} (e : env) (k : nat) (call : M A) (w : world) :
  fail_at e = None -> await e k call w = call w.
Proof. intros H. unfold await. now rewrite H. Qed.

Lemma await_failure {A : Type} (e : env) (k : nat) (call : M A) (w : world) :
  fail_at e = Some k -> await e k call w = (Rejected, w).
Proof. intros H. unfold await. now rewrite H, Nat.eqb_refl. Qed.

Lemma await_other_failure {A : Type} (e : env) (j k : nat) (call : M A) (w : world) :
  fail_at e = Some j -> j <> k -> await e k call w = call w.
Proof.
  intros H Hne. unfold await. rewrite H.
  destruct (Nat.eqb_spec j k); [contradiction | reflexivity].
Qed.

(** Splits on which awaited call of a handler is the failing one. *)
Ltac failure_cases e :=
  let F := fresh "F" in
  destruct (fail_at e) as [[|[|[|[|[|?]]]]]|] eqn:F.

Ltac unfold_handler :=
  unfold reset_password, forgot_password, bind, await, ret, bcrypt_hash_call,
    select_valid_resets, select_users_by_email, update_password_hash,
    delete_resets_by_token, insert_password_reset, sendResetEmail in *.

Ltac run_handler := unfold_handler; simpl in *.

(** *** Tokens *)

Example to_hex_bytes : to_hex [Byte.xff; Byte.x0a; Byte.x10] = "ff0a10".
Proof. reflexivity. Qed.

Example generate_token_zero_bytes :
  generate_token (ServerSamples.env_at 0) = ServerSamples.token0.
Proof. reflexivity. Qed.

Lemma to_hex_length (bs : list Byte.byte) :
  String.length (to_hex bs) = (2 * List.length bs)%nat.
Proof. induction bs as [|b bs IH]; simpl; [reflexivity | rewrite IH; lia]. Qed.

(** *** The lookup *)

Lemma valid_rows_nil (e : env) (token : string) (w : world) :
  valid_rows e token w = [] <->
  (forall r, In r (password_resets (store w)) ->
             r_token r = token -> r_expires_at r <= db_now e).
Proof.
  unfold valid_rows. split.
  - intros Hnil r Hin Htok.
    destruct (Z.ltb (db_now e) (r_expires_at r)) eqn:Hlt.
    + assert (Hr : In r []).
      { rewrite <- Hnil. apply filter_In. split; [exact Hin |].
        rewrite Hlt, andb_true_r. now apply String.eqb_eq. }
      destruct Hr.
    + apply Z.ltb_ge in Hlt. exact Hlt.
  - intros Hall.
    destruct (List.filter _ _) as [|r rest] eqn:Hf; [reflexivity |].
    assert (Hr : In r (r :: rest)) by (left; reflexivity).
    rewrite <- Hf in Hr. apply filter_In in Hr. destruct Hr as [Hin Hb].
    apply andb_true_iff in Hb. destruct Hb as [Ht Hlt].
    apply String.eqb_eq in Ht. apply Z.ltb_lt in Hlt.
    specialize (Hall r Hin Ht). lia.
Qed.

Lemma valid_rows_head (e : env) (token : string) (w : world)
      (row0 : reset_row) (rest : list reset_row) :
  valid_rows e token w = row0 :: rest ->
  In row0 (password_resets (store w)) /\ r_token row0 = token /\
  db_now e < r_expires_at row0.
Proof.
  intros Hf.
  assert (Hr : In row0 (valid_rows e token w)) by (rewrite Hf; left; reflexivity).
  unfold valid_rows in Hr. apply filter_In in Hr. destruct Hr as [Hin Hb].
  apply andb_true_iff in Hb. destruct Hb as [Ht Hlt].
  apply String.eqb_eq in Ht. apply Z.ltb_lt in Hlt. auto.
Qed.

Lemma valid_rows_of_member (e : env) (token : string) (w : world) (r : reset_row) :
  In r (password_resets (store w)) -> r_token r = token ->
  db_now e < r_expires_at r ->
  exists row0 rest, valid_rows e token w = row0 :: rest.
Proof.
  intros Hin Ht Hlt.
  destruct (valid_rows e token w) as [|row0 rest] eqn:Hf; [| eauto].
  pose proof (proj1 (valid_rows_nil e token w) Hf r Hin Ht). lia.
Qed.

(** *** [forgot_password], call by call *)

Lemma no_user_rows (email : string) (us : list user_row) :
  Nat.eqb (List.length (List.filter (fun u => String.eqb (u_email u) email) us)) 0
  = negb (existsb (fun u => String.eqb (u_email u) email) us).
Proof.
  induction us as [|u us IH]; [reflexivity |].
  simpl. destruct (String.eqb (u_email u) email); [reflexivity | exact IH].
Qed.

Lemma forgot_password_unregistered (e : env) (email : string) (w : world) :
  fail_at e <> Some 1%nat -> registered email w = false ->
  forgot_password e email w = (Returned generic_notice, w).
Proof.
  unfold registered. intros Hf Hreg. unfold_handler.
  failure_cases e; try congruence; cbn [Nat.eqb]; cbn beta iota; rewrite no_user_rows, Hreg; reflexivity.
Qed.

Lemma forgot_password_lookup_fails (e : env) (email : string) (w : world) :
  fail_at e = Some 1%nat -> forgot_password e email w = (Rejected, w).
Proof. intros Hf. run_handler. now rewrite Hf. Qed.

Lemma forgot_password_registered (e : env) (email : string) (w : world) :
  fail_at e = None -> registered email w = true ->
  token_taken (generate_token e) (store w) = false ->
  forgot_password e email w =
  (Returned link_sent,
   mk_world
     (mk_db (users (store w))
            (password_resets (store w) ++ [issued_row e email w])%list
            (password_resets_id_seq (store w) + 1))
     (outbox w ++ [reset_mail email (generate_token e)])%list).
Proof.
  unfold registered. intros Hf Hreg Hfree. unfold_handler.
  rewrite Hf. cbn beta iota. rewrite no_user_rows, Hreg. cbn.
  rewrite Hfree. reflexivity.
Qed.

(** What a request for a registered email leaves in [password_resets], for
    every point of failure. *)
Lemma forgot_password_registered_rows (e : env) (email : string) (w : world) :
  registered email w = true ->
  password_resets (store (snd (forgot_password e email w))) =
  if token_taken (generate_token e) (store w) then password_resets (store w)
  else match fail_at e with
       | Some 1%nat | Some 2%nat => password_resets (store w)
       | _ => (password_resets (store w) ++ [issued_row e email w])%list
       end.
Proof.
  unfold registered. intros Hreg. unfold_handler.
  destruct (token_taken (generate_token e) (store w)) eqn:Ht;
    failure_cases e; cbn [Nat.eqb]; cbn beta iota; try reflexivity; rewrite no_user_rows, Hreg; cbn; rewrite ?Ht; reflexivity.
Qed.

Lemma forgot_password_collision (e : env) (email : string) (w : world) :
  registered email w = true -> fail_at e <> Some 1%nat ->
  token_taken (generate_token e) (store w) = true ->
  fst (forgot_password e email w) = Rejected /\
  users (store (snd (forgot_password e email w))) = users (store w) /\
  password_resets (store (snd (forgot_password e email w))) = password_resets (store w) /\
  outbox (snd (forgot_password e email w)) = outbox w.
Proof.
  unfold registered. intros Hreg Hf Ht. unfold_handler.
  failure_cases e; try congruence; cbn [Nat.eqb]; cbn beta iota; rewrite no_user_rows, Hreg; cbn; rewrite ?Ht; auto.
Qed.

(** Whatever happens, [forgot_password] adds at most the issued row. *)
Lemma forgot_password_rows (e : env) (email : string) (w : world) :
  password_resets (store (snd (forgot_password e email w))) = password_resets (store w) \/
  (token_taken (generate_token e) (store w) = false /\
   password_resets (store (snd (forgot_password e email w)))
   = (password_resets (store w) ++ [issued_row e email w])%list).
Proof.
  destruct (registered email w) eqn:Hreg.
  - rewrite (forgot_password_registered_rows e email w Hreg).
    destruct (token_taken (generate_token e) (store w)); [now left |].
    failure_cases e; auto.
  - destruct (fail_at e) as [k|] eqn:Hf.
    + destruct (Nat.eq_dec k 1%nat) as [-> | Hk].
      * rewrite (forgot_password_lookup_fails e email w Hf). now left.
      * rewrite (forgot_password_unregistered e email w) by congruence. now left.
    + rewrite (forgot_password_unregistered e email w) by congruence. now left.
Qed.

(** C1, on the code: the answer of [forgot_password] tells a registered
    email from an unregistered one.  Both requests are answered with status
    200, but the registered email gets "Password reset link has been sent to
    your email." and the unregistered one "If this email is registered, a
    reset link will be sent.". *)
Theorem forgot_password_discloses_registration
    (e : env) (email : string) (w1 w2 : world) :
  fail_at e = None ->
  registered email w1 = true ->
  registered email w2 = false ->
  token_taken (generate_token e) (store w1) = false ->
  fst (forgot_password e email w1)
  = Returned (mk_response 200
                (Message "Password reset link has been sent to your email.")) /\
  fst (forgot_password e email w2)
  = Returned (mk_response 200
                (Message "If this email is registered, a reset link will be sent.")) /\
  fst (forgot_password e email w1) <> fst (forgot_password e email w2).
Proof.
  intros Hf H1 H2 Hfree.
  rewrite (forgot_password_registered e email w1 Hf H1 Hfree).
  rewrite (forgot_password_unregistered e email w2) by congruence.
  simpl. repeat split. discriminate.
Qed.

(** C7, as the code has it: a request for a registered email adds at most
    one row to [password_resets], and exactly one when the lookup and the
    insert go through; the row carries the email and the generated token,
    and its [expires_at] is 3600000 ms, one hour, after the [Date.now()] the
    handler read.  The row's own issue timestamp [created_at] is the
    database clock at the insert, so [expires_at - created_at] is one hour
    plus the difference of the two clock readings: one hour exactly only
    when they agree. *)
Theorem forgot_password_issues_one_hour_token
    (e : env) (email : string) (w : world) :
  registered email w = true ->
  (password_resets (store (snd (forgot_password e email w))) = password_resets (store w) \/
   password_resets (store (snd (forgot_password e email w)))
   = (password_resets (store w) ++ [issued_row e email w])%list) /\
  (fail_at e <> Some 1%nat -> fail_at e <> Some 2%nat ->
   token_taken (generate_token e) (store w) = false ->
   password_resets (store (snd (forgot_password e email w)))
   = (password_resets (store w) ++ [issued_row e email w])%list) /\
  r_email (issued_row e email w) = email /\
  r_token (issued_row e email w) = generate_token e /\
  r_expires_at (issued_row e email w) - date_now e = 3600000 /\
  r_created_at (issued_row e email w) = db_now e /\
  r_expires_at (issued_row e email w) - r_created_at (issued_row e email w)
  = 3600000 + (date_now e - db_now e).
Proof.
  intros Hreg. split; [| split].
  - destruct (forgot_password_rows e email w) as [H | [_ H]]; auto.
  - intros H1 H2 Hfree.
    rewrite (forgot_password_registered_rows e email w Hreg), Hfree.
    failure_cases e; congruence.
  - unfold issued_row; simpl. repeat split; lia.
Qed.

(** C7: with [Date.now()] at 5000 and the database clock at 9000, the one
    row the request stores has [expires_at = 3605000] and
    [created_at = 9000]: its two timestamps are 3596000 ms apart, not one
    hour. *)
Lemma forgot_password_row_clocks_differ :
  registered "alice@example.com" ServerSamples.w_registered = true /\
  password_resets
    (store (snd (forgot_password
                   (mk_env 5000 9000 ServerSamples.zero_bytes None)
                   "alice@example.com" ServerSamples.w_registered)))
  = [mk_reset 1 "alice@example.com" ServerSamples.token0 3605000 9000] /\
  r_expires_at (mk_reset 1 "alice@example.com" ServerSamples.token0 3605000 9000)
  - r_created_at (mk_reset 1 "alice@example.com" ServerSamples.token0 3605000 9000)
  = 3596000 /\
  3596000 <> 3600000.
Proof. repeat split. discriminate. Qed.

(** *** [reset_password], call by call *)

Section ResetPassword.

Variable bcrypt_hash : string -> Z -> string.

Lemma reset_password_unknown (e : env) (token password : string) (w : world) :
  fail_at e <> Some 1%nat -> valid_rows e token w = [] ->
  reset_password bcrypt_hash e token password w = (Returned invalid_or_expired, w).
Proof.
  unfold valid_rows. intros Hf Hv. run_handler. rewrite Hv.
  failure_cases e; try reflexivity. congruence.
Qed.

Lemma reset_password_lookup_fails (e : env) (token password : string) (w : world) :
  fail_at e = Some 1%nat ->
  reset_password bcrypt_hash e token password w = (Rejected, w).
Proof. intros Hf. run_handler. now rewrite Hf. Qed.

Lemma reset_password_valid (e : env) (token password : string) (w : world)
      (row0 : reset_row) (rest : list reset_row) :
  fail_at e = None -> valid_rows e token w = row0 :: rest ->
  reset_password bcrypt_hash e token password w =
  (Returned reset_successful, after_delete bcrypt_hash token password row0 w).
Proof.
  unfold valid_rows. intros Hf Hv. run_handler. rewrite Hf, Hv. reflexivity.
Qed.

Lemma reset_password_valid_failing (e : env) (token password : string) (w : world)
      (row0 : reset_row) (rest : list reset_row) (k : nat) :
  fail_at e = Some k -> valid_rows e token w = row0 :: rest ->
  reset_password bcrypt_hash e token password w =
  match k with
  | 1%nat | 2%nat | 3%nat => (Rejected, w)
  | 4%nat => (Rejected, after_update bcrypt_hash password row0 w)
  | _ => (Returned reset_successful, after_delete bcrypt_hash token password row0 w)
  end.
Proof.
  unfold valid_rows. intros Hf Hv. run_handler. rewrite Hf.
  destruct k as [|[|[|[|[|k]]]]]; simpl; rewrite ?Hv; reflexivity.
Qed.

Lemma set_password_hash_no_match (hash email : string) (us : list user_row) :
  (forall u, In u us -> u_email u <> email) ->
  map (set_password_hash hash email) us = us.
Proof.
  induction us as [|u us IH]; intros Hno; [reflexivity |].
  simpl. rewrite IH by (intros u' Hu'; apply Hno; now right).
  unfold set_password_hash.
  destruct (String.eqb_spec (u_email u) email) as [Heq | Hne].
  - exfalso. apply (Hno u); [now left | exact Heq].
  - reflexivity.
Qed.

(** C2, as the code has it: the credential update and the token delete are
    two separate statements, the update first.  For a token that passes the
    lookup: when no call fails, the credential is overwritten and the token
    deleted; when the lookup, the hashing or the update fails, nothing
    changes; when the delete fails, the credential is overwritten and the
    token row stays. *)
Theorem reset_password_update_then_delete
    (e : env) (token password : string) (w : world)
    (row0 : reset_row) (rest : list reset_row) :
  valid_rows e token w = row0 :: rest ->
  (fail_at e = None ->
   reset_password bcrypt_hash e token password w =
   (Returned reset_successful, after_delete bcrypt_hash token password row0 w)) /\
  (fail_at e = Some 1%nat \/ fail_at e = Some 2%nat \/ fail_at e = Some 3%nat ->
   reset_password bcrypt_hash e token password w = (Rejected, w)) /\
  (fail_at e = Some 4%nat ->
   reset_password bcrypt_hash e token password w =
   (Rejected, after_update bcrypt_hash password row0 w)).
Proof.
  intros Hv. repeat split.
  - intros Hf. eapply reset_password_valid; eassumption.
  - intros [Hf | [Hf | Hf]];
      rewrite (reset_password_valid_failing e token password w row0 rest _ Hf Hv);
      reflexivity.
  - intros Hf.
    rewrite (reset_password_valid_failing e token password w row0 rest _ Hf Hv).
    reflexivity.
Qed.

(** C3, on the code: [reset_password] never looks at the password.  With a
    token that passes the lookup and no failing call, every password, also
    one that breaks the documented requirements, is hashed and stored, and
    the answer is the success message. *)
Theorem reset_password_accepts_any_password
    (e : env) (token password : string) (w : world)
    (row0 : reset_row) (rest : list reset_row) :
  fail_at e = None ->
  valid_rows e token w = row0 :: rest ->
  reset_password bcrypt_hash e token password w =
  (Returned reset_successful, after_delete bcrypt_hash token password row0 w).
Proof. intros Hf Hv. eapply reset_password_valid; eassumption. Qed.

(** C4, as the code has it: a token that passes the lookup but whose email
    matches no account is answered with the success message; its row is
    deleted and the [users] table is left as it was. *)
Theorem reset_password_orphan_token
    (e : env) (token password : string) (w : world)
    (row0 : reset_row) (rest : list reset_row) :
  fail_at e = None ->
  valid_rows e token w = row0 :: rest ->
  (forall u, In u (users (store w)) -> u_email u <> r_email row0) ->
  reset_password bcrypt_hash e token password w =
  (Returned reset_successful,
   mk_world
     (mk_db (users (store w))
            (without_token token (password_resets (store w)))
            (password_resets_id_seq (store w)))
     (outbox w)).
Proof.
  intros Hf Hv Hno.
  rewrite (reset_password_valid e token password w row0 rest Hf Hv).
  unfold after_delete. now rewrite set_password_hash_no_match.
Qed.

(** C5, as the code has it: [reset_password] answers 400 with
    [{ error: "Invalid or expired token" }] exactly when its lookup runs and
    every stored row of the token has [expires_at <= NOW()], which covers the
    token that has no row (never issued, or deleted when it was used).  The
    answer is the same in all these cases and the world is left unchanged. *)
Theorem reset_password_invalid_iff
    (e : env) (token password : string) (w : world) :
  (fst (reset_password bcrypt_hash e token password w) = Returned invalid_or_expired <->
   fail_at e <> Some 1%nat /\
   (forall r, In r (password_resets (store w)) ->
              r_token r = token -> r_expires_at r <= db_now e)) /\
  (fst (reset_password bcrypt_hash e token password w) = Returned invalid_or_expired ->
   snd (reset_password bcrypt_hash e token password w) = w).
Proof.
  destruct (valid_rows e token w) as [|row0 rest] eqn:Hv.
  - destruct (fail_at e) as [k|] eqn:Hf.
    + destruct (Nat.eq_dec k 1%nat) as [-> | Hk].
      * rewrite (reset_password_lookup_fails e token password w Hf). simpl.
        split; [split |]; [discriminate | intros [H _]; congruence | discriminate].
      * rewrite (reset_password_unknown e token password w) by congruence.
        simpl. split; [split |]; auto.
        intros _. split; [congruence | now apply valid_rows_nil].
    + rewrite (reset_password_unknown e token password w) by congruence.
      simpl. split; [split |]; auto.
      intros _. split; [congruence | now apply valid_rows_nil].
  - assert (Hnot : fst (reset_password bcrypt_hash e token password w)
                   <> Returned invalid_or_expired).
    { destruct (fail_at e) as [k|] eqn:Hf.
      - rewrite (reset_password_valid_failing e token password w row0 rest k Hf Hv).
        destruct k as [|[|[|[|[|k]]]]]; simpl; discriminate.
      - rewrite (reset_password_valid e token password w row0 rest Hf Hv).
        simpl; discriminate. }
    split; [split |]; try (intros H; contradiction).
    intros [_ Hall]. apply valid_rows_nil in Hall. congruence.
Qed.


(** *** Sequences of requests *)

Lemma reset_password_rows (e : env) (token password : string) (w : world) :
  password_resets (store (snd (reset_password bcrypt_hash e token password w)))
  = password_resets (store w) \/
  password_resets (store (snd (reset_password bcrypt_hash e token password w)))
  = without_token token (password_resets (store w)).
Proof.
  destruct (valid_rows e token w) as [|row0 rest] eqn:Hv.
  - destruct (fail_at e) as [k|] eqn:Hf.
    + destruct (Nat.eq_dec k 1%nat) as [-> | Hk].
      * rewrite (reset_password_lookup_fails e token password w Hf). now left.
      * rewrite (reset_password_unknown e token password w) by congruence. now left.
    + rewrite (reset_password_unknown e token password w) by congruence. now left.
  - destruct (fail_at e) as [k|] eqn:Hf.
    + rewrite (reset_password_valid_failing e token password w row0 rest k Hf Hv).
      destruct k as [|[|[|[|[|k]]]]]; simpl; auto.
    + rewrite (reset_password_valid e token password w row0 rest Hf Hv).
      simpl; auto.
Qed.

Lemma without_token_subset (token : string) (rows : list reset_row) (r : reset_row) :
  In r (without_token token rows) -> In r rows.
Proof. unfold without_token. intros H. apply filter_In in H. tauto. Qed.

Lemma without_token_absent (token : string) (rows : list reset_row) (r : reset_row) :
  In r (without_token token rows) -> r_token r <> token.
Proof.
  unfold without_token. intros H. apply filter_In in H. destruct H as [_ H].
  apply negb_true_iff in H. now apply String.eqb_neq.
Qed.

Lemma without_token_unique (token : string) (rows : list reset_row) :
  List.NoDup (map r_token rows) -> List.NoDup (map r_token (without_token token rows)).
Proof.
  unfold without_token.
  induction rows as [|r rows IH]; simpl; intros Hnd; [constructor |].
  inversion Hnd as [|t ts Hnotin Hnd' Heq]; subst.
  destruct (negb (String.eqb (r_token r) token)); simpl; [| auto].
  constructor; [| auto].
  intros Hin. apply Hnotin. apply in_map_iff in Hin.
  destruct Hin as [r' [Ht Hr']]. apply filter_In in Hr'.
  apply in_map_iff. exists r'. tauto.
Qed.

Lemma token_taken_false (token : string) (d : db) :
  token_taken token d = false -> ~ In token (map r_token (password_resets d)).
Proof.
  unfold token_taken. intros Hfree Hin.
  apply in_map_iff in Hin. destruct Hin as [r [Ht Hr]].
  assert (Htrue : existsb (fun r => String.eqb (r_token r) token) (password_resets d) = true).
  { apply existsb_exists. exists r. split; [exact Hr | now apply String.eqb_eq]. }
  congruence.
Qed.

Lemma insert_keeps_unique (rows : list reset_row) (r : reset_row) :
  List.NoDup (map r_token rows) -> ~ In (r_token r) (map r_token rows) ->
  List.NoDup (map r_token (rows ++ [r])).
Proof.
  induction rows as [|r0 rows IH]; simpl; intros Hnd Hnotin.
  - constructor; [intros [] | constructor].
  - inversion Hnd as [|t ts Hr0 Hnd' Heq]; subst.
    constructor.
    + rewrite map_app, in_app_iff. simpl. intros [H | [H | []]]; [tauto |].
      apply Hnotin. left. now symmetry.
    + apply IH; [exact Hnd' | tauto].
Qed.

Lemma handle_keeps_unique (e : env) (rq : request) (w : world) :
  unique_tokens w -> unique_tokens (snd (handle bcrypt_hash e rq w)).
Proof.
  unfold unique_tokens. intros Hu. destruct rq as [email | token password]; simpl.
  - destruct (forgot_password_rows e email w) as [-> | [Hfree ->]]; [exact Hu |].
    apply insert_keeps_unique; [exact Hu |].
    now apply token_taken_false.
  - destruct (reset_password_rows e token password w) as [-> | ->]; [exact Hu |].
    now apply without_token_unique.
Qed.

Lemma serve_keeps_unique (trace : list (env * request)) (w : world) :
  unique_tokens w -> unique_tokens (serve bcrypt_hash trace w).
Proof.
  revert w. induction trace as [|[e rq] trace IH]; intros w Hu; simpl; [exact Hu |].
  apply IH. now apply handle_keeps_unique.
Qed.

Lemma handle_keeps_absent (token : string) (e : env) (rq : request) (w : world) :
  match rq with
  | ForgotPassword _ => generate_token e <> token
  | ResetPassword _ _ => True
  end ->
  absent token w -> absent token (snd (handle bcrypt_hash e rq w)).
Proof.
  unfold absent. intros Hfresh Ha r. destruct rq as [email | token' password]; simpl.
  - destruct (forgot_password_rows e email w) as [-> | [_ ->]]; [apply Ha |].
    intros Hin. apply in_app_or in Hin. destruct Hin as [Hin | [<- | []]].
    + now apply Ha.
    + exact Hfresh.
  - destruct (reset_password_rows e token' password w) as [-> | ->]; [apply Ha |].
    intros Hin. apply Ha. eapply without_token_subset; eassumption.
Qed.

Lemma serve_keeps_absent (token : string) (trace : list (env * request)) (w : world) :
  never_reissued token trace ->
  absent token w -> absent token (serve bcrypt_hash trace w).
Proof.
  revert w. induction trace as [|[e rq] trace IH]; intros w Hnr Ha; simpl; [exact Ha |].
  inversion Hnr as [|x xs Hhd Htl]; subst.
  apply IH; [exact Htl |]. now apply handle_keeps_absent.
Qed.

Lemma absent_no_valid_rows (e : env) (token : string) (w : world) :
  absent token w -> valid_rows e token w = [].
Proof.
  intros Ha. apply valid_rows_nil. intros r Hin Ht.
  exfalso. exact (Ha r Hin Ht).
Qed.

(** C6: a token that has a row and is presented before its [expires_at], in a
    request none of whose calls fails, is accepted, whatever the password.
    After that, along every sequence of further requests that does not mint
    the same token value again, every [reset_password] presenting it is
    refused: it never gets the success answer, and it gets
    [{ error: "Invalid or expired token" }] with status 400, leaving the
    world unchanged, whenever its lookup runs. *)
Theorem reset_token_single_use
    (e : env) (token password : string) (w : world) (r : reset_row) :
  fail_at e = None ->
  In r (password_resets (store w)) -> r_token r = token ->
  db_now e < r_expires_at r ->
  fst (reset_password bcrypt_hash e token password w) = Returned reset_successful /\
  forall trace, never_reissued token trace ->
  forall e' password',
    let w' := serve bcrypt_hash trace
                (snd (reset_password bcrypt_hash e token password w)) in
    fst (reset_password bcrypt_hash e' token password' w') <> Returned reset_successful /\
    (fail_at e' <> Some 1%nat ->
     reset_password bcrypt_hash e' token password' w' = (Returned invalid_or_expired, w')).
Proof.
  intros Hf Hin Ht Hlt.
  destruct (valid_rows_of_member e token w r Hin Ht Hlt) as [row0 [rest Hv]].
  rewrite (reset_password_valid e token password w row0 rest Hf Hv).
  split; [reflexivity |].
  intros trace Hnr e' password' w'.
  assert (Ha : absent token w').
  { apply serve_keeps_absent; [exact Hnr |].
    intros r' Hr'. simpl in Hr'. eapply without_token_absent; eassumption. }
  pose proof (absent_no_valid_rows e' token w' Ha) as Hnil.
  split.
  - destruct (fail_at e') as [k|] eqn:Hf'.
    + destruct (Nat.eq_dec k 1%nat) as [-> | Hk].
      * rewrite (reset_password_lookup_fails e' token password' w' Hf').
        simpl; discriminate.
      * rewrite (reset_password_unknown e' token password' w') by congruence.
        simpl; discriminate.
    + rewrite (reset_password_unknown e' token password' w') by congruence.
      simpl; discriminate.
  - intros Hf'. now apply reset_password_unknown.
Qed.

(** C8, as the code has it: along every sequence of requests the tokens of
    [password_resets] stay pairwise different; when the generated token is
    already stored, the insert fails, the handler ends without an answer,
    and no row and no mail is added: the token is not generated again. *)
Theorem reset_tokens_stay_unique :
  (forall (trace : list (env * request)) (w : world),
      unique_tokens w -> unique_tokens (serve bcrypt_hash trace w)) /\
  (forall (e : env) (email : string) (w : world),
      registered email w = true -> fail_at e <> Some 1%nat ->
      token_taken (generate_token e) (store w) = true ->
      fst (forgot_password e email w) = Rejected /\
      password_resets (store (snd (forgot_password e email w)))
      = password_resets (store w) /\
      outbox (snd (forgot_password e email w)) = outbox w).
Proof.
  split.
  - apply serve_keeps_unique.
  - intros e email w Hreg Hf Ht.
    destruct (forgot_password_collision e email w Hreg Hf Ht) as [H1 [_ [H2 H3]]].
    auto.
Qed.

End ResetPassword.

(** C2: a run whose [DELETE] fails has overwritten Alice's credential and
    left her token in the table, where it still passes the lookup. *)
Lemma reset_password_delete_failure_leaves_token :
  let w' := snd (reset_password ServerSamples.sample_hash
                   (ServerSamples.env_failing 2000 4) ServerSamples.token0
                   "Abcdefg1" ServerSamples.w_pending) in
  users (store w') <> users (store ServerSamples.w_pending) /\
  map u_password_hash (users (store w')) = ["bcrypt:Abcdefg1"] /\
  password_resets (store w') = password_resets (store ServerSamples.w_pending) /\
  valid_rows (ServerSamples.env_at 2001) ServerSamples.token0 w'
    = [ServerSamples.alice_reset].
Proof. vm_compute. repeat split; try reflexivity. discriminate. Qed.

Lemma reset_password_update_then_delete_witness :
  valid_rows (ServerSamples.env_failing 2000 4) ServerSamples.token0
    ServerSamples.w_pending = [ServerSamples.alice_reset] /\
  reset_password ServerSamples.sample_hash (ServerSamples.env_failing 2000 4)
    ServerSamples.token0 "Abcdefg1" ServerSamples.w_pending =
  (Rejected,
   after_update ServerSamples.sample_hash "Abcdefg1" ServerSamples.alice_reset
     ServerSamples.w_pending).
Proof.
  split; [reflexivity |].
  apply (reset_password_update_then_delete ServerSamples.sample_hash
           (ServerSamples.env_failing 2000 4) ServerSamples.token0 "Abcdefg1"
           ServerSamples.w_pending ServerSamples.alice_reset []);
    reflexivity.
Defined.

Lemma reset_password_accepts_any_password_witness :
  fail_at (ServerSamples.env_at 2000) = None /\
  valid_rows (ServerSamples.env_at 2000) ServerSamples.token0
    ServerSamples.w_pending = [ServerSamples.alice_reset] /\
  reset_password ServerSamples.sample_hash (ServerSamples.env_at 2000)
    ServerSamples.token0 "abc12345" ServerSamples.w_pending =
  (Returned reset_successful,
   after_delete ServerSamples.sample_hash ServerSamples.token0 "abc12345"
     ServerSamples.alice_reset ServerSamples.w_pending).
Proof.
  split; [reflexivity |]. split; [reflexivity |].
  apply (reset_password_accepts_any_password ServerSamples.sample_hash
           (ServerSamples.env_at 2000) ServerSamples.token0 "abc12345"
           ServerSamples.w_pending ServerSamples.alice_reset []);
    reflexivity.
Defined.

(** C4: the token of a deleted account is answered with the success
    message, not with the error of an invalid token. *)
Lemma reset_password_orphan_token_succeeds :
  valid_rows (ServerSamples.env_at 2000) ServerSamples.token0
    ServerSamples.w_orphan = [ServerSamples.orphan_reset] /\
  users (store ServerSamples.w_orphan) = [] /\
  fst (reset_password ServerSamples.sample_hash (ServerSamples.env_at 2000)
         ServerSamples.token0 "Abcdefg1" ServerSamples.w_orphan)
  = Returned reset_successful /\
  fst (reset_password ServerSamples.sample_hash (ServerSamples.env_at 2000)
         ServerSamples.token0 "Abcdefg1" ServerSamples.w_orphan)
  <> Returned invalid_or_expired.
Proof. vm_compute. repeat split; try reflexivity. discriminate. Qed.

Lemma reset_password_orphan_token_witness :
  fail_at (ServerSamples.env_at 2000) = None /\
  valid_rows (ServerSamples.env_at 2000) ServerSamples.token0
    ServerSamples.w_orphan = [ServerSamples.orphan_reset] /\
  reset_password ServerSamples.sample_hash (ServerSamples.env_at 2000)
    ServerSamples.token0 "Abcdefg1" ServerSamples.w_orphan =
  (Returned reset_successful, mk_world (mk_db [] [] 2) []).
Proof.
  split; [reflexivity |]. split; [reflexivity |].
  apply (reset_password_orphan_token ServerSamples.sample_hash
           (ServerSamples.env_at 2000) ServerSamples.token0 "Abcdefg1"
           ServerSamples.w_orphan ServerSamples.orphan_reset []);
    [reflexivity | reflexivity | intros u []].
Defined.

Lemma reset_password_invalid_iff_witness :
  fail_at (ServerSamples.env_at 3601000) <> Some 1%nat /\
  fst (reset_password ServerSamples.sample_hash (ServerSamples.env_at 3601000)
         ServerSamples.token0 "Abcdefg1" ServerSamples.w_pending)
  = Returned invalid_or_expired.
Proof.
  split; [discriminate |].
  apply (proj1 (reset_password_invalid_iff ServerSamples.sample_hash
                  (ServerSamples.env_at 3601000) ServerSamples.token0
                  "Abcdefg1" ServerSamples.w_pending)).
  split; [discriminate |].
  intros r [<- | []] _. vm_compute. discriminate.
Defined.

(** C5: at the very instant [expires_at], the row is stored and the clock is
    not past [expires_at], yet the token is refused. *)
Lemma reset_password_refuses_at_expiry_instant :
  In ServerSamples.alice_reset (password_resets (store ServerSamples.w_pending)) /\
  r_token ServerSamples.alice_reset = ServerSamples.token0 /\
  ~ (db_now (ServerSamples.env_at 3601000) > r_expires_at ServerSamples.alice_reset) /\
  fst (reset_password ServerSamples.sample_hash (ServerSamples.env_at 3601000)
         ServerSamples.token0 "Abcdefg1" ServerSamples.w_pending)
  = Returned invalid_or_expired.
Proof.
  split; [left; reflexivity |]. split; [reflexivity |].
  split; [vm_compute; intros H; discriminate H | reflexivity].
Qed.

Lemma forgot_password_discloses_registration_witness :
  fail_at (ServerSamples.env_at 2000) = None /\
  registered "alice@example.com" ServerSamples.w_registered = true /\
  registered "alice@example.com" ServerSamples.w_unregistered = false /\
  fst (forgot_password (ServerSamples.env_at 2000) "alice@example.com"
         ServerSamples.w_registered)
  <> fst (forgot_password (ServerSamples.env_at 2000) "alice@example.com"
            ServerSamples.w_unregistered).
Proof.
  split; [reflexivity |]. split; [reflexivity |]. split; [reflexivity |].
  apply (forgot_password_discloses_registration (ServerSamples.env_at 2000)
           "alice@example.com" ServerSamples.w_registered
           ServerSamples.w_unregistered);
    reflexivity.
Defined.

Lemma reset_token_single_use_witness :
  In ServerSamples.alice_reset (password_resets (store ServerSamples.w_pending)) /\
  db_now (ServerSamples.env_at 2000) < r_expires_at ServerSamples.alice_reset /\
  never_reissued ServerSamples.token0 ServerSamples.later_requests /\
  let w' := serve ServerSamples.sample_hash ServerSamples.later_requests
              (snd (reset_password ServerSamples.sample_hash
                      (ServerSamples.env_at 2000) ServerSamples.token0
                      "Abcdefg1" ServerSamples.w_pending)) in
  reset_password ServerSamples.sample_hash (ServerSamples.env_at 3000)
    ServerSamples.token0 "Abcdefg1" w' = (Returned invalid_or_expired, w').
Proof.
  assert (Hnr : never_reissued ServerSamples.token0 ServerSamples.later_requests).
  { repeat constructor. vm_compute. discriminate. }
  split; [left; reflexivity |]. split; [reflexivity |]. split; [exact Hnr |].
  apply (reset_token_single_use ServerSamples.sample_hash
           (ServerSamples.env_at 2000) ServerSamples.token0 "Abcdefg1"
           ServerSamples.w_pending ServerSamples.alice_reset);
    [reflexivity | left; reflexivity | reflexivity | reflexivity
    | exact Hnr | discriminate].
Defined.

Lemma forgot_password_issues_one_hour_token_witness :
  registered "alice@example.com" ServerSamples.w_registered = true /\
  password_resets
    (store (snd (forgot_password (ServerSamples.env_at 2000) "alice@example.com"
                   ServerSamples.w_registered)))
  = [mk_reset 1 "alice@example.com" ServerSamples.token0 3602000 2000].
Proof.
  split; [reflexivity |].
  apply (forgot_password_issues_one_hour_token (ServerSamples.env_at 2000)
           "alice@example.com" ServerSamples.w_registered);
    [reflexivity | discriminate | discriminate | reflexivity].
Defined.

(** C8: the generated token is already stored; the request ends without an
    answer and the table holds the old row only: nothing was generated
    again. *)
Lemma forgot_password_collision_not_retried :
  token_taken (generate_token (ServerSamples.env_at 2000))
    (store ServerSamples.w_pending) = true /\
  forgot_password (ServerSamples.env_at 2000) "alice@example.com"
    ServerSamples.w_pending
  = (Rejected,
     mk_world (mk_db [ServerSamples.alice] [ServerSamples.alice_reset] 3) []).
Proof. split; reflexivity. Qed.

Lemma reset_tokens_stay_unique_witness :
  unique_tokens ServerSamples.w_pending /\
  unique_tokens
    (serve ServerSamples.sample_hash ServerSamples.later_requests
       ServerSamples.w_pending) /\
  registered "alice@example.com" ServerSamples.w_pending = true /\
  token_taken (generate_token (ServerSamples.env_at 2000))
    (store ServerSamples.w_pending) = true /\
  fst (forgot_password (ServerSamples.env_at 2000) "alice@example.com"
         ServerSamples.w_pending) = Rejected.
Proof.
  assert (Hu : unique_tokens ServerSamples.w_pending).
  { unfold unique_tokens. simpl. constructor; [intros [] | constructor]. }
  split; [exact Hu |]. split.
  - apply (proj1 (reset_tokens_stay_unique ServerSamples.sample_hash)). exact Hu.
  - split; [reflexivity |]. split; [reflexivity |].
    apply (proj2 (reset_tokens_stay_unique ServerSamples.sample_hash)
             (ServerSamples.env_at 2000) "alice@example.com"
             ServerSamples.w_pending);
      [reflexivity | discriminate | reflexivity].
Defined.

End ServerProofs.

(** ** Properties of the browser helpers *)

Module ClientProofs.
Import Client ClientNotions.

Lemma get_prop_defined (v : jsval) (k : string) (b : browser) :
  nullish v = false -> get_prop v k b = (Normal (prop v k), b).
Proof. destruct v; simpl; intros H; try discriminate; reflexivity. Qed.

Lemma get_prop_nullish (v : jsval) (k : string) (b : browser) :
  nullish v = true -> get_prop v k b = (Throw TypeError, b).
Proof. destruct v; simpl; intros H; try discriminate; reflexivity. Qed.

Lemma getAuthHeaders_run (b : browser) :
  getAuthHeaders b = (Normal (auth_headers b), b).
Proof. reflexivity. Qed.

Section Platform.

Variable fetch : string -> request_init -> option http_response.
Variable JSON_stringify : jsval -> jsval.
Variable ToString : jsval -> string.
Variable storage_full : gmap string string -> string -> string -> bool.

(** *** [signup] and [login] *)

Ltac settle_report :=
  repeat split; eauto; intros;
  repeat (simplify_eq; simpl in * );
  try congruence; try reflexivity;
  try match goal with
      | H : storage_accepts _ _ _ _ _ |- _ =>
          destruct H; unfold token_string, user_string in *; congruence
      end.

(** One script for both helpers, whose [try] blocks differ in the request
    only: run the block down every branch, then read off the report. *)
Ltac run_try Hn :=
  repeat first
    [ rewrite get_prop_defined by exact Hn
    | rewrite get_prop_nullish by exact Hn
    | progress (unfold localStorage_setItem; simpl)
    | match goal with
      | |- context [if storage_full ?m ?k ?v then _ else _] =>
          destruct (storage_full m k v) eqn:?
      end ].

Ltac prove_reports :=
  unfold reports, try_catch, bind, await_fetch, await_json;
  match goal with
  | |- context [fetch ?url ?init] =>
      destruct (fetch url init) as [[okr [data|]]|]; simpl;
      [ destruct (nullish data) eqn:Hn; destruct okr; run_try Hn; settle_report
      | settle_report
      | settle_report ]
  end.

Lemma signup_reports (name email password : jsval) (b : browser) :
  reports ToString JSON_stringify storage_full
    (fetch (getApiUrl SIGNUP)
       (mk_init (Some "POST") [("Content-Type", "application/json")]
          (Some (JSON_stringify
                   (JObj [("name", name); ("email", email); ("password", password)])))))
    b
    (signup fetch JSON_stringify ToString storage_full name email password b).
Proof.
  unfold signup. prove_reports.
Qed.

Lemma login_reports (email password : jsval) (b : browser) :
  reports ToString JSON_stringify storage_full
    (fetch (getApiUrl LOGIN)
       (mk_init (Some "POST") [("Content-Type", "application/json")]
          (Some (JSON_stringify (JObj [("email", email); ("password", password)])))))
    b
    (login fetch JSON_stringify ToString storage_full email password b).
Proof.
  unfold login. prove_reports.
Qed.

Ltac prove_refused :=
  unfold refused_write, try_catch, bind, await_fetch, await_json;
  intros r data Hres Hjson Hn Hok;
  destruct r as [okr body]; simpl in Hjson, Hok; subst okr body;
  rewrite Hres; simpl; run_try Hn;
  split; intros; unfold token_string, user_string in *;
  try congruence; reflexivity.

Lemma signup_refused (name email password : jsval) (b : browser) :
  refused_write ToString JSON_stringify storage_full
    (fetch (getApiUrl SIGNUP)
       (mk_init (Some "POST") [("Content-Type", "application/json")]
          (Some (JSON_stringify
                   (JObj [("name", name); ("email", email); ("password", password)])))))
    b
    (signup fetch JSON_stringify ToString storage_full name email password b).
Proof. unfold signup. prove_refused. Qed.

Lemma login_refused (email password : jsval) (b : browser) :
  refused_write ToString JSON_stringify storage_full
    (fetch (getApiUrl LOGIN)
       (mk_init (Some "POST") [("Content-Type", "application/json")]
          (Some (JSON_stringify (JObj [("email", email); ("password", password)])))))
    b
    (login fetch JSON_stringify ToString storage_full email password b).
Proof. unfold login. prove_refused. Qed.

(** C9, as the code has it: [AuthAPI.signup] and [AuthAPI.login] always
    return a value, for every argument, page and platform.  The value is
    [{ success: false, error: "Network error. ..." }] when [fetch] rejects,
    when the body of the response cannot be read, when the body is [null]
    or [undefined], and when [localStorage] refuses a write (after a
    refused second write the token stays stored).  A response that is not
    OK and whose body is read as another value yields
    [{ success: false, error: data.error }].  An OK response whose body is
    read as another value and whose two writes are accepted has
    [access_token] and the serialized [user] written to [localStorage] and
    yields [{ success: true, data }]. *)
Theorem auth_api_reports :
  (forall (name email password : jsval) (b : browser),
      reports ToString JSON_stringify storage_full
        (fetch (getApiUrl SIGNUP)
           (mk_init (Some "POST") [("Content-Type", "application/json")]
              (Some (JSON_stringify
                       (JObj [("name", name); ("email", email);
                              ("password", password)])))))
        b
        (signup fetch JSON_stringify ToString storage_full name email password b) /\
      refused_write ToString JSON_stringify storage_full
        (fetch (getApiUrl SIGNUP)
           (mk_init (Some "POST") [("Content-Type", "application/json")]
              (Some (JSON_stringify
                       (JObj [("name", name); ("email", email);
                              ("password", password)])))))
        b
        (signup fetch JSON_stringify ToString storage_full name email password b)) /\
  (forall (email password : jsval) (b : browser),
      reports ToString JSON_stringify storage_full
        (fetch (getApiUrl LOGIN)
           (mk_init (Some "POST") [("Content-Type", "application/json")]
              (Some (JSON_stringify
                       (JObj [("email", email); ("password", password)])))))
        b
        (login fetch JSON_stringify ToString storage_full email password b) /\
      refused_write ToString JSON_stringify storage_full
        (fetch (getApiUrl LOGIN)
           (mk_init (Some "POST") [("Content-Type", "application/json")]
              (Some (JSON_stringify
                       (JObj [("email", email); ("password", password)])))))
        b
        (login fetch JSON_stringify ToString storage_full email password b)).
Proof.
  split; intros; split.
  - apply signup_reports.
  - apply signup_refused.
  - apply login_reports.
  - apply login_refused.
Qed.

(** *** The resource helpers *)

Ltac prove_falls_back :=
  unfold falls_back, try_catch, bind, console_error;
  rewrite getAuthHeaders_run; unfold await_fetch, await_json;
  match goal with
  | |- context [fetch ?url ?init] =>
      destruct (fetch url init) as [[[|] [data|]]|]; simpl;
      repeat split; eauto; intros; repeat (simplify_eq; simpl in * );
      try congruence; try reflexivity
  end.

Lemma getEvents_falls_back (b : browser) :
  falls_back (JArr [])
    (fetch (getApiUrl CALENDAR_EVENTS) (mk_init None (auth_headers b) None))
    b (getEvents fetch b).
Proof. unfold getEvents. prove_falls_back. Qed.

Lemma createEvent_falls_back (eventData : jsval) (b : browser) :
  falls_back JNull
    (fetch (getApiUrl CALENDAR_EVENTS)
       (mk_init (Some "POST") (auth_headers b) (Some (JSON_stringify eventData))))
    b (createEvent fetch JSON_stringify eventData b).
Proof. unfold createEvent. prove_falls_back. Qed.

Lemma getMoodEntries_falls_back (b : browser) :
  falls_back (JArr [])
    (fetch (getApiUrl MOOD_ENTRIES) (mk_init None (auth_headers b) None))
    b (getMoodEntries fetch b).
Proof. unfold getMoodEntries. prove_falls_back. Qed.

Lemma createMoodEntry_falls_back (mood moodLevel notes : jsval) (b : browser) :
  falls_back JNull
    (fetch (getApiUrl MOOD_ENTRIES)
       (mk_init (Some "POST") (auth_headers b)
          (Some (JSON_stringify
                   (JObj [("mood", mood); ("mood_level", moodLevel);
                          ("notes", default_arg notes (JStr ""))])))))
    b (createMoodEntry fetch JSON_stringify mood moodLevel notes b).
Proof. unfold createMoodEntry. prove_falls_back. Qed.

Lemma getGoals_falls_back (b : browser) :
  falls_back (JArr [])
    (fetch (getApiUrl GOALS) (mk_init None (auth_headers b) None))
    b (getGoals fetch b).
Proof. unfold getGoals. prove_falls_back. Qed.

Lemma createGoal_falls_back (goalData : jsval) (b : browser) :
  falls_back JNull
    (fetch (getApiUrl GOALS)
       (mk_init (Some "POST") (auth_headers b) (Some (JSON_stringify goalData))))
    b (createGoal fetch JSON_stringify goalData b).
Proof. unfold createGoal. prove_falls_back. Qed.

Lemma getStudySessions_falls_back (b : browser) :
  falls_back (JArr [])
    (fetch (getApiUrl STUDY_SESSIONS) (mk_init None (auth_headers b) None))
    b (getStudySessions fetch b).
Proof. unfold getStudySessions. prove_falls_back. Qed.

Lemma createStudySession_falls_back
    (duration subject notes sessionType : jsval) (b : browser) :
  falls_back JNull
    (fetch (getApiUrl STUDY_SESSIONS)
       (mk_init (Some "POST") (auth_headers b)
          (Some (JSON_stringify
                   (JObj [("duration", duration); ("subject", subject);
                          ("notes", default_arg notes (JStr ""));
                          ("session_type",
                           default_arg sessionType (JStr "pomodoro"))])))))
    b (createStudySession fetch JSON_stringify duration subject notes sessionType b).
Proof. unfold createStudySession. prove_falls_back. Qed.

(** C10: each of the eight resource helpers always returns a value.  When no
    response arrives, when the response is not OK and when its body cannot
    be read, the four list helpers return [[]] and the four create helpers
    return [null]; the body of an OK response is returned as it is. *)
Theorem resource_helpers_fall_back :
  (forall b,
      falls_back (JArr [])
        (fetch (getApiUrl CALENDAR_EVENTS) (mk_init None (auth_headers b) None))
        b (getEvents fetch b)) /\
  (forall b,
      falls_back (JArr [])
        (fetch (getApiUrl MOOD_ENTRIES) (mk_init None (auth_headers b) None))
        b (getMoodEntries fetch b)) /\
  (forall b,
      falls_back (JArr [])
        (fetch (getApiUrl GOALS) (mk_init None (auth_headers b) None))
        b (getGoals fetch b)) /\
  (forall b,
      falls_back (JArr [])
        (fetch (getApiUrl STUDY_SESSIONS) (mk_init None (auth_headers b) None))
        b (getStudySessions fetch b)) /\
  (forall eventData b,
      falls_back JNull
        (fetch (getApiUrl CALENDAR_EVENTS)
           (mk_init (Some "POST") (auth_headers b) (Some (JSON_stringify eventData))))
        b (createEvent fetch JSON_stringify eventData b)) /\
  (forall mood moodLevel notes b,
      falls_back JNull
        (fetch (getApiUrl MOOD_ENTRIES)
           (mk_init (Some "POST") (auth_headers b)
              (Some (JSON_stringify
                       (JObj [("mood", mood); ("mood_level", moodLevel);
                              ("notes", default_arg notes (JStr ""))])))))
        b (createMoodEntry fetch JSON_stringify mood moodLevel notes b)) /\
  (forall goalData b,
      falls_back JNull
        (fetch (getApiUrl GOALS)
           (mk_init (Some "POST") (auth_headers b) (Some (JSON_stringify goalData))))
        b (createGoal fetch JSON_stringify goalData b)) /\
  (forall duration subject notes sessionType b,
      falls_back JNull
        (fetch (getApiUrl STUDY_SESSIONS)
           (mk_init (Some "POST") (auth_headers b)
              (Some (JSON_stringify
                       (JObj [("duration", duration); ("subject", subject);
                              ("notes", default_arg notes (JStr ""));
                              ("session_type",
                               default_arg sessionType (JStr "pomodoro"))])))))
        b (createStudySession fetch JSON_stringify duration subject notes sessionType b)).
Proof.
  repeat match goal with |- _ /\ _ => split end; intros.
  - apply getEvents_falls_back.
  - apply getMoodEntries_falls_back.
  - apply getGoals_falls_back.
  - apply getStudySessions_falls_back.
  - apply createEvent_falls_back.
  - apply createMoodEntry_falls_back.
  - apply createGoal_falls_back.
  - apply createStudySession_falls_back.
Qed.

End Platform.

Lemma auth_api_reports_witness :
  signup ClientSamples.fetch_down ClientSamples.sample_stringify
    ClientSamples.sample_ToString ClientSamples.roomy
    (JStr "Alice") (JStr "alice@example.com") (JStr "Abcdefg1")
    ClientSamples.empty_page
  = (Normal network_error, ClientSamples.empty_page) /\
  login ClientSamples.fetch_refusing ClientSamples.sample_stringify
    ClientSamples.sample_ToString ClientSamples.roomy
    (JStr "alice@example.com") (JStr "wrong")
    ClientSamples.empty_page
  = (Normal (failure_of (JStr "Invalid credentials")), ClientSamples.empty_page) /\
  login ClientSamples.fetch_accepting ClientSamples.sample_stringify
    ClientSamples.sample_ToString ClientSamples.roomy
    (JStr "alice@example.com") (JStr "Abcdefg1")
    ClientSamples.empty_page
  = (Normal (success_of ClientSamples.accepted_body),
     mk_browser (<["user" := "json:alice"]> (<["access_token" := "jwt-1"]> ∅)) []).
Proof.
  split; [| split].
  - destruct (proj1 (auth_api_reports ClientSamples.fetch_down
                       ClientSamples.sample_stringify ClientSamples.sample_ToString
                       ClientSamples.roomy)
                (JStr "Alice") (JStr "alice@example.com") (JStr "Abcdefg1")
                ClientSamples.empty_page) as ((_ & H & _) & _).
    apply H. reflexivity.
  - destruct (proj2 (auth_api_reports ClientSamples.fetch_refusing
                       ClientSamples.sample_stringify ClientSamples.sample_ToString
                       ClientSamples.roomy)
                (JStr "alice@example.com") (JStr "wrong")
                ClientSamples.empty_page) as ((_ & _ & _ & _ & H & _) & _).
    apply (H (mk_http false (Some ClientSamples.refusal_body))
             ClientSamples.refusal_body);
      reflexivity.
  - destruct (proj2 (auth_api_reports ClientSamples.fetch_accepting
                       ClientSamples.sample_stringify ClientSamples.sample_ToString
                       ClientSamples.roomy)
                (JStr "alice@example.com") (JStr "Abcdefg1")
                ClientSamples.empty_page) as ((_ & _ & _ & _ & _ & H) & _).
    apply (H (mk_http true (Some ClientSamples.accepted_body))
             ClientSamples.accepted_body);
      try reflexivity.
    split; reflexivity.
Defined.

(** C9: an OK response whose body is [null] stores nothing and is reported
    as a network error, and a response that is not OK and whose body is not
    JSON is reported as a network error too, not with an error of the
    body. *)
Lemma auth_api_unreadable_answers :
  ClientSamples.fetch_ok_null (getApiUrl LOGIN)
    (mk_init (Some "POST") [("Content-Type", "application/json")]
       (Some (ClientSamples.sample_stringify
                (JObj [("email", JStr "alice@example.com");
                       ("password", JStr "Abcdefg1")]))))
  = Some (mk_http true (Some JNull)) /\
  login ClientSamples.fetch_ok_null ClientSamples.sample_stringify
    ClientSamples.sample_ToString ClientSamples.roomy
    (JStr "alice@example.com") (JStr "Abcdefg1") ClientSamples.empty_page
  = (Normal network_error, ClientSamples.empty_page) /\
  network_error <> success_of JNull /\
  login ClientSamples.fetch_bad_gateway ClientSamples.sample_stringify
    ClientSamples.sample_ToString ClientSamples.roomy
    (JStr "alice@example.com") (JStr "Abcdefg1") ClientSamples.empty_page
  = (Normal network_error, ClientSamples.empty_page).
Proof. repeat split. discriminate. Qed.

Lemma resource_helpers_fall_back_witness :
  fst (getEvents ClientSamples.fetch_down ClientSamples.empty_page)
  = Normal (JArr []) /\
  fst (createGoal ClientSamples.fetch_refusing ClientSamples.sample_stringify
         (JObj [("title", JStr "Read")]) ClientSamples.empty_page)
  = Normal JNull.
Proof.
  pose proof (resource_helpers_fall_back ClientSamples.fetch_down
                ClientSamples.sample_stringify) as (Hget & _).
  pose proof (resource_helpers_fall_back ClientSamples.fetch_refusing
                ClientSamples.sample_stringify)
    as (_ & _ & _ & _ & _ & _ & Hgoal & _).
  split.
  - destruct (Hget ClientSamples.empty_page) as (_ & _ & H & _).
    apply H. reflexivity.
  - destruct (Hgoal (JObj [("title", JStr "Read")]) ClientSamples.empty_page)
      as (_ & _ & _ & H & _).
    apply (H (mk_http false (Some ClientSamples.refusal_body))); reflexivity.
Defined.

End ClientProofs.

(** ** Further properties of the password-reset handlers *)

Module ServerExtras.
Import Server ServerNotions ServerProofs.

(** *** The token format *)

Lemma hex_digit_code (n : N) :
  (n < 16)%N ->
  N_of_ascii (hex_digit n) = (if (n <? 10)%N then 48 + n else 87 + n)%N.
Proof.
  intros Hn. unfold hex_digit.
  destruct (n <? 10)%N; apply N_ascii_embedding; lia.
Qed.

Lemma hex_digit_injective (n m : N) :
  (n < 16)%N -> (m < 16)%N -> hex_digit n = hex_digit m -> n = m.
Proof.
  intros Hn Hm Heq.
  assert (Hc : N_of_ascii (hex_digit n) = N_of_ascii (hex_digit m)) by now rewrite Heq.
  rewrite !hex_digit_code in Hc by assumption.
  destruct (N.ltb_spec n 10), (N.ltb_spec m 10); lia.
Qed.

Lemma byte_below_256 (b : Byte.byte) : (Byte.to_N b < 256)%N.
Proof. destruct b; vm_compute; reflexivity. Qed.

Lemma hex_digit_lower_hex (n : N) :
  (n < 16)%N -> In (hex_digit n) (list_ascii_of_string "0123456789abcdef").
Proof.
  intros Hn.
  assert (Hall : List.Forall
                   (fun k => In (hex_digit (N.of_nat k))
                                (list_ascii_of_string "0123456789abcdef"))
                   (seq 0 16)).
  { repeat (apply List.Forall_cons; [vm_compute; tauto |]). apply List.Forall_nil. }
  rewrite <- (N2Nat.id n).
  apply (proj1 (List.Forall_forall _ _) Hall).
  apply in_seq. lia.
Qed.

(** X1: when [crypto.randomBytes(32)] delivers its 32 bytes, the token is 64
    characters long and made of the characters [0-9a-f] only. *)
Theorem generate_token_format (e : env) :
  List.length (randomBytes e 32) = 32%nat ->
  String.length (generate_token e) = 64%nat /\
  (forall c, In c (list_ascii_of_string (generate_token e)) ->
             In c (list_ascii_of_string "0123456789abcdef")).
Proof.
  intros Hlen. unfold generate_token. split.
  - rewrite to_hex_length, Hlen. reflexivity.
  - generalize (randomBytes e 32). clear Hlen.
    induction l as [|b bs IH]; simpl; intros c Hc; [contradiction |].
    pose proof (byte_below_256 b) as Hb.
    destruct Hc as [<- | [<- | Hc]].
    + apply hex_digit_lower_hex. apply N.Div0.div_lt_upper_bound. lia.
    + apply hex_digit_lower_hex. apply N.mod_lt. lia.
    + now apply IH.
Qed.

(** X2: the hexadecimal encoding loses nothing: different byte strings give
    different tokens. *)
Theorem to_hex_injective (bs1 bs2 : list Byte.byte) :
  to_hex bs1 = to_hex bs2 -> bs1 = bs2.
Proof.
  revert bs2. induction bs1 as [|b1 bs1 IH]; intros [|b2 bs2] Heq;
    simpl in Heq; try discriminate; [reflexivity |].
  injection Heq as Hhi Hlo Hrest.
  pose proof (byte_below_256 b1) as H1. pose proof (byte_below_256 b2) as H2.
  apply hex_digit_injective in Hhi;
    [| apply N.Div0.div_lt_upper_bound; lia | apply N.Div0.div_lt_upper_bound; lia].
  apply hex_digit_injective in Hlo; [| apply N.mod_lt; lia | apply N.mod_lt; lia].
  assert (Hn : Byte.to_N b1 = Byte.to_N b2).
  { rewrite (N.div_mod (Byte.to_N b1) 16), (N.div_mod (Byte.to_N b2) 16) by lia.
    now rewrite Hhi, Hlo. }
  assert (Hb : Some b1 = Some b2).
  { rewrite <- (Byte.of_to_N b1), <- (Byte.of_to_N b2). now rewrite Hn. }
  injection Hb as ->. f_equal. now apply IH.
Qed.

(** *** What [forgot_password] leaves behind *)

Lemma token_free_rows (token : string) (d : db) :
  token_taken token d = false ->
  forall r, In r (password_resets d) -> r_token r <> token.
Proof.
  intros Hfree r Hin Ht. apply (token_taken_false token d Hfree).
  apply in_map_iff. exists r. auto.
Qed.

Lemma without_token_free (token : string) (rows : list reset_row) :
  (forall r, In r rows -> r_token r <> token) -> without_token token rows = rows.
Proof.
  unfold without_token. induction rows as [|r rows IH]; intros Hfree; [reflexivity |].
  simpl. destruct (String.eqb_spec (r_token r) token) as [Heq | Hne]; simpl.
  - exfalso. apply (Hfree r); [now left | exact Heq].
  - f_equal. apply IH. intros r' Hr'. apply Hfree. now right.
Qed.

Lemma lookup_free (now : Z) (token : string) (rows : list reset_row) :
  (forall r, In r rows -> r_token r <> token) ->
  List.filter (fun r => String.eqb (r_token r) token && Z.ltb now (r_expires_at r)) rows
  = [].
Proof.
  induction rows as [|r rows IH]; intros Hfree; [reflexivity |].
  simpl. destruct (String.eqb_spec (r_token r) token) as [Heq | Hne]; simpl.
  - exfalso. apply (Hfree r); [now left | exact Heq].
  - apply IH. intros r' Hr'. apply Hfree. now right.
Qed.

(** The world after a request whose insert went through, with or without the
    mail. *)
Lemma forgot_password_mail_fails (e : env) (email : string) (w : world) :
  fail_at e = Some 3%nat -> registered email w = true ->
  token_taken (generate_token e) (store w) = false ->
  forgot_password e email w =
  (Rejected,
   mk_world
     (mk_db (users (store w))
            (password_resets (store w) ++ [issued_row e email w])%list
            (password_resets_id_seq (store w) + 1))
     (outbox w)).
Proof.
  unfold registered. intros Hf Hreg Hfree. unfold_handler.
  rewrite Hf. cbn [Nat.eqb]. cbn beta iota. rewrite no_user_rows, Hreg. cbn.
  rewrite Hfree. reflexivity.
Qed.

(** The rows a later lookup of the issued token selects. *)
Lemma issued_token_lookup (e e' : env) (email : string) (w w1 : world) :
  token_taken (generate_token e) (store w) = false ->
  password_resets (store w1)
  = (password_resets (store w) ++ [issued_row e email w])%list ->
  valid_rows e' (generate_token e) w1 =
  if Z.ltb (db_now e') (date_now e + 3600000) then [issued_row e email w] else [].
Proof.
  intros Hfree Hrows. unfold valid_rows. rewrite Hrows, List.filter_app.
  rewrite lookup_free by (now apply token_free_rows).
  simpl. rewrite String.eqb_refl. simpl.
  destruct (Z.ltb (db_now e') (date_now e + 3600000)); reflexivity.
Qed.

(** Every way a request can end, by what it leaves in the world. *)
Lemma forgot_password_world (e : env) (email : string) (w : world) :
  let w' := snd (forgot_password e email w) in
  users (store w') = users (store w) /\
  ((password_resets (store w') = password_resets (store w) /\ outbox w' = outbox w) \/
   (registered email w = true /\
    token_taken (generate_token e) (store w) = false /\
    password_resets (store w')
    = (password_resets (store w) ++ [issued_row e email w])%list /\
    (outbox w' = outbox w \/
     outbox w' = (outbox w ++ [reset_mail email (generate_token e)])%list))).
Proof.
  destruct (registered email w) eqn:Hreg.
  - unfold registered in Hreg. unfold_handler.
    destruct (token_taken (generate_token e) (store w)) eqn:Ht;
      failure_cases e; cbn [Nat.eqb]; cbn beta iota; try (cbn; tauto);
      rewrite no_user_rows, Hreg; cbn; rewrite ?Ht; cbn; tauto.
  - destruct (fail_at e) as [k|] eqn:Hf.
    + destruct (Nat.eq_dec k 1%nat) as [-> | Hk].
      * rewrite (forgot_password_lookup_fails e email w Hf). cbn. tauto.
      * rewrite (forgot_password_unregistered e email w) by congruence. cbn. tauto.
    + rewrite (forgot_password_unregistered e email w) by congruence. cbn. tauto.
Qed.

(** X3: a request for an email that no account has changes nothing: no row,
    no mail, whichever call fails; it is answered with the generic notice
    whenever the lookup runs. *)
Theorem forgot_password_unregistered_no_trace (e : env) (email : string) (w : world) :
  registered email w = false ->
  snd (forgot_password e email w) = w /\
  (fail_at e <> Some 1%nat ->
   fst (forgot_password e email w) = Returned generic_notice).
Proof.
  intros Hreg. destruct (fail_at e) as [k|] eqn:Hf.
  - destruct (Nat.eq_dec k 1%nat) as [-> | Hk].
    + rewrite (forgot_password_lookup_fails e email w Hf). simpl.
      split; [reflexivity | congruence].
    + rewrite (forgot_password_unregistered e email w) by congruence. auto.
  - rewrite (forgot_password_unregistered e email w) by congruence. auto.
Qed.

(** X4: whatever fails, [forgot_password] leaves the [users] table as it was
    and sends at most one mail; a mail goes out only for a registered email,
    only after the row of its token was stored, to the requested address
    with the link of that very token. *)
Theorem forgot_password_mails_stored_token_only (e : env) (email : string) (w : world) :
  users (store (snd (forgot_password e email w))) = users (store w) /\
  (outbox (snd (forgot_password e email w)) = outbox w \/
   (outbox (snd (forgot_password e email w))
    = (outbox w ++ [mk_mail "your-email@gmail.com" email
                      "Password Reset Request - EduDesk"
                      (String.append
                         "https://yourdomain.com/reset-password.html?token="
                         (generate_token e))])%list /\
    registered email w = true /\
    password_resets (store (snd (forgot_password e email w)))
    = (password_resets (store w)
         ++ [mk_reset (password_resets_id_seq (store w)) email (generate_token e)
               (date_now e + 3600000) (db_now e)])%list)).
Proof.
  destruct (forgot_password_world e email w) as [Hu [[_ Ho] | [Hreg [_ [Hrows [Ho | Ho]]]]]];
    split; auto.
Qed.

Section Lifecycle.

Variable bcrypt_hash : string -> Z -> string.

(** X5: the token of a request that went through is accepted by a later
    [reset_password] presented while the database clock is before
    [Date.now() + 3600000] of the request: the accounts with the requested
    email get the hash of the new password, the row of the token is gone and
    the rest of the world is as the request left it. *)
Theorem issued_token_accepted_within_the_hour
    (e e' : env) (email password : string) (w : world) :
  fail_at e = None -> registered email w = true ->
  token_taken (generate_token e) (store w) = false ->
  fail_at e' = None -> db_now e' < date_now e + 3600000 ->
  reset_password bcrypt_hash e' (generate_token e) password
    (snd (forgot_password e email w))
  = (Returned reset_successful,
     mk_world
       (mk_db (map (set_password_hash (bcrypt_hash password 10) email)
                   (users (store w)))
              (password_resets (store w))
              (password_resets_id_seq (store w) + 1))
       (outbox w ++ [reset_mail email (generate_token e)])%list).
Proof.
  intros Hf Hreg Hfree Hf' Hlt.
  rewrite (forgot_password_registered e email w Hf Hreg Hfree). cbn [snd].
  set (w1 := mk_world _ _).
  assert (Hv : valid_rows e' (generate_token e) w1 = [issued_row e email w]).
  { rewrite (issued_token_lookup e e' email w w1 Hfree eq_refl).
    apply Z.ltb_lt in Hlt. now rewrite Hlt. }
  rewrite (reset_password_valid bcrypt_hash e' (generate_token e) password w1
             (issued_row e email w) [] Hf' Hv).
  unfold after_delete, w1, without_token. cbn.
  rewrite List.filter_app. cbn. rewrite String.eqb_refl. cbn.
  rewrite app_nil_r.
  fold (without_token (generate_token e) (password_resets (store w))).
  rewrite without_token_free by (now apply token_free_rows).
  reflexivity.
Qed.

(** X6: the same token presented when the database clock has reached
    [Date.now() + 3600000] of the request is refused with the error of an
    invalid token, and nothing changes. *)
Theorem issued_token_refused_after_the_hour
    (e e' : env) (email password : string) (w : world) :
  fail_at e = None -> registered email w = true ->
  token_taken (generate_token e) (store w) = false ->
  fail_at e' <> Some 1%nat -> date_now e + 3600000 <= db_now e' ->
  reset_password bcrypt_hash e' (generate_token e) password
    (snd (forgot_password e email w))
  = (Returned invalid_or_expired, snd (forgot_password e email w)).
Proof.
  intros Hf Hreg Hfree Hf' Hge.
  apply reset_password_unknown; [exact Hf' |].
  rewrite (issued_token_lookup e e' email w _ Hfree).
  - apply Z.ltb_ge in Hge. now rewrite Hge.
  - now rewrite (forgot_password_registered e email w Hf Hreg Hfree).
Qed.

(** X7: when the mail cannot be sent, the request ends without an answer and
    without a mail, but the row of the token is already stored and the token
    is accepted within the hour like one that was mailed. *)
Theorem mail_failure_leaves_usable_token
    (e e' : env) (email password : string) (w : world) :
  fail_at e = Some 3%nat -> registered email w = true ->
  token_taken (generate_token e) (store w) = false ->
  fail_at e' = None -> db_now e' < date_now e + 3600000 ->
  fst (forgot_password e email w) = Rejected /\
  outbox (snd (forgot_password e email w)) = outbox w /\
  password_resets (store (snd (forgot_password e email w)))
  = (password_resets (store w) ++ [issued_row e email w])%list /\
  fst (reset_password bcrypt_hash e' (generate_token e) password
         (snd (forgot_password e email w)))
  = Returned reset_successful.
Proof.
  intros Hf Hreg Hfree Hf' Hlt.
  rewrite (forgot_password_mail_fails e email w Hf Hreg Hfree). cbn [fst snd].
  repeat split.
  set (w1 := mk_world _ _).
  assert (Hv : valid_rows e' (generate_token e) w1 = [issued_row e email w]).
  { rewrite (issued_token_lookup e e' email w w1 Hfree eq_refl).
    apply Z.ltb_lt in Hlt. now rewrite Hlt. }
  now rewrite (reset_password_valid bcrypt_hash e' (generate_token e) password w1
                 (issued_row e email w) [] Hf' Hv).
Qed.

(** *** What [reset_password] touches *)

(** Every way a confirmation can end, by the world it leaves. *)
Lemma reset_password_world (e : env) (token password : string) (w : world) :
  snd (reset_password bcrypt_hash e token password w) = w \/
  exists row0 rest,
    valid_rows e token w = row0 :: rest /\
    (snd (reset_password bcrypt_hash e token password w)
     = after_update bcrypt_hash password row0 w \/
     snd (reset_password bcrypt_hash e token password w)
     = after_delete bcrypt_hash token password row0 w).
Proof.
  destruct (valid_rows e token w) as [|row0 rest] eqn:Hv.
  - left. destruct (fail_at e) as [k|] eqn:Hf.
    + destruct (Nat.eq_dec k 1%nat) as [-> | Hk].
      * now rewrite (reset_password_lookup_fails bcrypt_hash e token password w Hf).
      * now rewrite (reset_password_unknown bcrypt_hash e token password w) by congruence.
    + now rewrite (reset_password_unknown bcrypt_hash e token password w) by congruence.
  - destruct (fail_at e) as [k|] eqn:Hf.
    + rewrite (reset_password_valid_failing bcrypt_hash e token password w row0 rest k Hf Hv).
      destruct k as [|[|[|[|[|k]]]]]; cbn [snd]; eauto 6.
    + rewrite (reset_password_valid bcrypt_hash e token password w row0 rest Hf Hv).
      cbn [snd]; eauto 6.
Qed.

Lemma Forall2_map_right {A : Type} (P : A -> A -> Prop) (f : A -> A) (l : list A) :
  (forall a, P a (f a)) -> List.Forall2 P l (map f l).
Proof. intros H. induction l; simpl; constructor; auto. Qed.

Lemma Forall2_same {A : Type} (P : A -> A -> Prop) (l : list A) :
  (forall a, P a a) -> List.Forall2 P l l.
Proof. intros H. induction l; constructor; auto. Qed.

(** X8: [reset_password] neither adds nor removes nor reorders accounts and
    sends no mail.  Of an account it changes the password hash at most, and
    only to the hash of the presented password, and only when the account's
    email is the one carried by a stored, unexpired row of the presented
    token. *)
Theorem reset_password_changes_only_the_hash
    (e : env) (token password : string) (w : world) :
  List.Forall2
    (fun u u' =>
       u_id u' = u_id u /\ u_name u' = u_name u /\ u_email u' = u_email u /\
       u_created_at u' = u_created_at u /\
       (u_password_hash u' = u_password_hash u \/
        (u_password_hash u' = bcrypt_hash password 10 /\
         exists row, In row (password_resets (store w)) /\
                     r_token row = token /\ r_email row = u_email u /\
                     db_now e < r_expires_at row)))
    (users (store w))
    (users (store (snd (reset_password bcrypt_hash e token password w)))) /\
  outbox (snd (reset_password bcrypt_hash e token password w)) = outbox w.
Proof.
  destruct (reset_password_world e token password w)
    as [-> | [row0 [rest [Hv [-> | ->]]]]].
  - split; [| reflexivity]. apply Forall2_same. intros u. tauto.
  - destruct (valid_rows_head e token w row0 rest Hv) as [Hin [Ht Hlt]].
    split; [| reflexivity]. cbn. apply Forall2_map_right.
    intros u. unfold set_password_hash.
    destruct (String.eqb_spec (u_email u) (r_email row0)) as [Heq | Hne]; cbn.
    + repeat split; auto. right. split; [reflexivity |]. exists row0. auto.
    + tauto.
  - destruct (valid_rows_head e token w row0 rest Hv) as [Hin [Ht Hlt]].
    split; [| reflexivity]. cbn. apply Forall2_map_right.
    intros u. unfold set_password_hash.
    destruct (String.eqb_spec (u_email u) (r_email row0)) as [Heq | Hne]; cbn.
    + repeat split; auto. right. split; [reflexivity |]. exists row0. auto.
    + tauto.
Qed.

(** *** Sequences of requests *)

Lemma lookup_without_other (now : Z) (token token' : string) (rows : list reset_row) :
  token <> token' ->
  List.filter (fun r => String.eqb (r_token r) token' && Z.ltb now (r_expires_at r))
              (without_token token rows)
  = List.filter (fun r => String.eqb (r_token r) token' && Z.ltb now (r_expires_at r))
                rows.
Proof.
  intros Hne. unfold without_token.
  induction rows as [|r rows IH]; [reflexivity |].
  simpl. destruct (String.eqb_spec (r_token r) token) as [Heq | Hneq]; simpl.
  - destruct (String.eqb_spec (r_token r) token') as [Heq' | _]; simpl; [congruence | exact IH].
  - now rewrite IH.
Qed.

Lemma handle_keeps_other_tokens (e e' : env) (rq : request) (token' : string) (w : world) :
  match rq with
  | ForgotPassword _ => generate_token e <> token'
  | ResetPassword token _ => token <> token'
  end ->
  valid_rows e' token' (snd (handle bcrypt_hash e rq w)) = valid_rows e' token' w.
Proof.
  intros Hother. unfold valid_rows. destruct rq as [email | token password]; simpl.
  - destruct (forgot_password_rows e email w) as [-> | [_ ->]]; [reflexivity |].
    rewrite List.filter_app. simpl.
    destruct (String.eqb_spec (generate_token e) token') as [Heq | _];
      [contradiction |].
    simpl. now rewrite app_nil_r.
  - destruct (reset_password_rows bcrypt_hash e token password w) as [-> | ->];
      [reflexivity |].
    now apply lookup_without_other.
Qed.

(** X9: a token stays exactly as usable as it was along every sequence of
    requests that neither presents it to [reset_password] nor mints its
    value again: requesting further links and using other tokens, also
    tokens of the same account, does not invalidate it. *)
Theorem other_tokens_stay_valid
    (trace : list (env * request)) (token' : string) (e' : env) (w : world) :
  Forall (fun '(e, rq) =>
            match rq with
            | ForgotPassword _ => generate_token e <> token'
            | ResetPassword token _ => token <> token'
            end) trace ->
  valid_rows e' token' (serve bcrypt_hash trace w) = valid_rows e' token' w.
Proof.
  revert w. induction trace as [|[e rq] trace IH]; intros w Hall; simpl; [reflexivity |].
  inversion Hall as [|x xs Hhd Htl]; subst.
  rewrite IH by exact Htl. now apply handle_keeps_other_tokens.
Qed.

Lemma registered_by_emails (email : string) (w w' : world) :
  map u_email (users (store w')) = map u_email (users (store w)) ->
  registered email w' = registered email w.
Proof.
  unfold registered. intros Hmap.
  assert (Hex : forall us,
             existsb (fun u => String.eqb (u_email u) email) us
             = existsb (fun s => String.eqb s email) (map u_email us)).
  { induction us as [|u us IH]; simpl; [reflexivity | now rewrite IH]. }
  now rewrite !Hex, Hmap.
Qed.

Lemma set_password_hash_keeps (hash email : string) (us : list user_row) :
  map u_email (map (set_password_hash hash email) us) = map u_email us /\
  map u_id (map (set_password_hash hash email) us) = map u_id us.
Proof.
  induction us as [|u us [IH1 IH2]]; [split; reflexivity |].
  simpl. rewrite IH1, IH2. unfold set_password_hash.
  destruct (String.eqb (u_email u) email); split; reflexivity.
Qed.

Lemma handle_keeps_accounts (e : env) (rq : request) (w : world) :
  let w' := snd (handle bcrypt_hash e rq w) in
  map u_email (users (store w')) = map u_email (users (store w)) /\
  map u_id (users (store w')) = map u_id (users (store w)) /\
  exists mails,
    outbox w' = (outbox w ++ mails)%list /\
    Forall (fun m => registered (mail_to m) w = true) mails.
Proof.
  destruct rq as [email | token password]; simpl.
  - destruct (forgot_password_world e email w)
      as [Hu [[_ Ho] | [Hreg [_ [_ [Ho | Ho]]]]]]; rewrite Hu.
    + repeat split. exists []. rewrite app_nil_r. auto.
    + repeat split. exists []. rewrite app_nil_r. auto.
    + repeat split. exists [reset_mail email (generate_token e)].
      split; [exact Ho |]. constructor; [exact Hreg | constructor].
  - destruct (reset_password_world e token password w)
      as [-> | [row0 [rest [_ [-> | ->]]]]]; cbn.
    + repeat split. exists []. rewrite app_nil_r. auto.
    + destruct (set_password_hash_keeps (bcrypt_hash password 10) (r_email row0)
                  (users (store w))) as [-> ->].
      repeat split. exists []. rewrite app_nil_r. auto.
    + destruct (set_password_hash_keeps (bcrypt_hash password 10) (r_email row0)
                  (users (store w))) as [-> ->].
      repeat split. exists []. rewrite app_nil_r. auto.
Qed.

(** X10: along every sequence of requests, with any failures, the two
    endpoints never create, delete, reorder or rename an account (ids and
    emails of [users] stay as they were), never take back a mail, and every
    mail they add is addressed to an email that has an account. *)
Theorem serve_keeps_accounts (trace : list (env * request)) (w : world) :
  map u_email (users (store (serve bcrypt_hash trace w))) = map u_email (users (store w)) /\
  map u_id (users (store (serve bcrypt_hash trace w))) = map u_id (users (store w)) /\
  exists mails,
    outbox (serve bcrypt_hash trace w) = (outbox w ++ mails)%list /\
    Forall (fun m => registered (mail_to m) w = true) mails.
Proof.
  revert w. induction trace as [|[e rq] trace IH]; intros w; simpl.
  - repeat split. exists []. rewrite app_nil_r. auto.
  - destruct (handle_keeps_accounts e rq w) as [He [Hi [mails1 [Ho1 Hm1]]]].
    destruct (IH (snd (handle bcrypt_hash e rq w))) as [He' [Hi' [mails2 [Ho2 Hm2]]]].
    split; [congruence |]. split; [congruence |].
    exists (mails1 ++ mails2)%list. split.
    + rewrite Ho2, Ho1. symmetry. apply List.app_assoc.
    + apply List.Forall_app. split; [exact Hm1 |].
      eapply List.Forall_impl; [| exact Hm2].
      intros m Hm. cbn in Hm. now rewrite (registered_by_emails _ _ _ He) in Hm.
Qed.

End Lifecycle.

Lemma generate_token_format_witness :
  List.length (randomBytes (ServerSamples.env_at 0) 32) = 32%nat /\
  String.length (generate_token (ServerSamples.env_at 0)) = 64%nat.
Proof.
  split; [reflexivity |].
  apply (generate_token_format (ServerSamples.env_at 0)). reflexivity.
Defined.

Lemma to_hex_injective_witness :
  to_hex [Byte.x0a; Byte.xff] = to_hex (rev [Byte.xff; Byte.x0a]) /\
  [Byte.x0a; Byte.xff] = rev [Byte.xff; Byte.x0a].
Proof.
  split; [reflexivity |].
  apply (to_hex_injective [Byte.x0a; Byte.xff] (rev [Byte.xff; Byte.x0a])).
  reflexivity.
Defined.

Lemma forgot_password_unregistered_no_trace_witness :
  registered "bob@example.com" ServerSamples.w_pending = false /\
  snd (forgot_password (ServerSamples.env_failing 2000 2) "bob@example.com"
         ServerSamples.w_pending) = ServerSamples.w_pending.
Proof.
  split; [reflexivity |].
  apply (forgot_password_unregistered_no_trace (ServerSamples.env_failing 2000 2)
           "bob@example.com" ServerSamples.w_pending).
  reflexivity.
Defined.

Lemma issued_token_accepted_within_the_hour_witness :
  registered "alice@example.com" ServerSamples.w_registered = true /\
  db_now (ServerSamples.env_at 3601999) < date_now (ServerSamples.env_at 2000) + 3600000 /\
  reset_password ServerSamples.sample_hash (ServerSamples.env_at 3601999)
    (generate_token (ServerSamples.env_at 2000)) "NewPass1"
    (snd (forgot_password (ServerSamples.env_at 2000) "alice@example.com"
            ServerSamples.w_registered))
  = (Returned reset_successful,
     mk_world
       (mk_db [mk_user 1 "Alice" "alice@example.com" "bcrypt:NewPass1" 0] [] 2)
       [reset_mail "alice@example.com" ServerSamples.token0]).
Proof.
  split; [reflexivity |]. split; [reflexivity |].
  apply (issued_token_accepted_within_the_hour ServerSamples.sample_hash
           (ServerSamples.env_at 2000) (ServerSamples.env_at 3601999)
           "alice@example.com" "NewPass1" ServerSamples.w_registered);
    reflexivity.
Defined.

Lemma issued_token_refused_after_the_hour_witness :
  date_now (ServerSamples.env_at 2000) + 3600000 <= db_now (ServerSamples.env_at 3602000) /\
  fst (reset_password ServerSamples.sample_hash (ServerSamples.env_at 3602000)
         (generate_token (ServerSamples.env_at 2000)) "NewPass1"
         (snd (forgot_password (ServerSamples.env_at 2000) "alice@example.com"
                 ServerSamples.w_registered)))
  = Returned invalid_or_expired.
Proof.
  split; [vm_compute; discriminate |].
  rewrite (issued_token_refused_after_the_hour ServerSamples.sample_hash
             (ServerSamples.env_at 2000) (ServerSamples.env_at 3602000)
             "alice@example.com" "NewPass1" ServerSamples.w_registered);
    [reflexivity | reflexivity | reflexivity | reflexivity | discriminate
    | vm_compute; discriminate].
Defined.

Lemma mail_failure_leaves_usable_token_witness :
  fail_at (ServerSamples.env_failing 2000 3) = Some 3%nat /\
  forgot_password (ServerSamples.env_failing 2000 3) "alice@example.com"
    ServerSamples.w_registered
  = (Rejected,
     mk_world
       (mk_db [ServerSamples.alice]
              [mk_reset 1 "alice@example.com" ServerSamples.token0 3602000 2000] 2)
       []) /\
  fst (reset_password ServerSamples.sample_hash (ServerSamples.env_at 3000)
         (generate_token (ServerSamples.env_failing 2000 3)) "NewPass1"
         (snd (forgot_password (ServerSamples.env_failing 2000 3)
                 "alice@example.com" ServerSamples.w_registered)))
  = Returned reset_successful.
Proof.
  split; [reflexivity |]. split; [reflexivity |].
  apply (mail_failure_leaves_usable_token ServerSamples.sample_hash
           (ServerSamples.env_failing 2000 3) (ServerSamples.env_at 3000)
           "alice@example.com" "NewPass1" ServerSamples.w_registered);
    reflexivity.
Defined.

Lemma other_tokens_stay_valid_witness :
  valid_rows (ServerSamples.env_at 3000) MoreSamples.token1
    MoreSamples.w_two_pending = [MoreSamples.alice_second_reset] /\
  valid_rows (ServerSamples.env_at 3000) MoreSamples.token1
    (serve ServerSamples.sample_hash
       ((ServerSamples.env_at 2000,
         ResetPassword ServerSamples.token0 "NewPass1")
          :: ServerSamples.later_requests)
       MoreSamples.w_two_pending)
  = [MoreSamples.alice_second_reset].
Proof.
  split; [reflexivity |].
  rewrite (other_tokens_stay_valid ServerSamples.sample_hash
             ((ServerSamples.env_at 2000,
               ResetPassword ServerSamples.token0 "NewPass1")
                :: ServerSamples.later_requests)
             MoreSamples.token1 (ServerSamples.env_at 3000)
             MoreSamples.w_two_pending);
    [reflexivity |].
  repeat constructor; vm_compute; discriminate.
Defined.

End ServerExtras.

(** ** Further properties of the browser side *)

Module ClientExtras.
#[local] Set Warnings "-notation-overridden".
Import Client ClientNotions Page MoreNotions.

Lemma isLoggedIn_run (b : browser) : isLoggedIn b = (Normal (has_token b), b).
Proof. reflexivity. Qed.

(** *** The page guard *)

Lemma split_no_separator (sep : ascii) (s : string) :
  ~ In sep (list_ascii_of_string s) -> FrontendExample.split sep s = [s].
Proof.
  induction s as [|c s IH]; simpl; intros Hno; [reflexivity |].
  destruct (Ascii.eqb_spec c sep) as [-> | Hne]; [tauto |].
  rewrite IH by tauto. reflexivity.
Qed.

Lemma split_cons (sep : ascii) (s : string) :
  exists piece pieces, FrontendExample.split sep s = piece :: pieces.
Proof.
  induction s as [|c s (piece & pieces & IH)]; simpl; [eauto |].
  destruct (Ascii.eqb c sep); [eauto |]. rewrite IH. eauto.
Qed.

(** The page of a path is what follows its last slash. *)
Lemma pop_split_last (dir file : string) :
  ~ In "/"%char (list_ascii_of_string file) ->
  exists piece pieces,
    FrontendExample.split "/"%char (String.append dir (String "/"%char file))
    = piece :: pieces /\
    pieces <> [] /\
    FrontendExample.pop (piece :: pieces) = Some file.
Proof.
  intros Hno. induction dir as [|c dir (piece & pieces & Hs & Hne & Hp)]; simpl.
  - rewrite (split_no_separator _ _ Hno). exists EmptyString, [file].
    repeat split. discriminate.
  - rewrite Hs. destruct (Ascii.eqb c "/"%char).
    + exists EmptyString, (piece :: pieces). repeat split; [discriminate | exact Hp].
    + exists (String c piece), pieces. repeat split; [exact Hne |].
      destruct pieces as [|q qs]; [contradiction | exact Hp].
Qed.

(** X17: on a path that ends in [/file], the guard sends the visitor to
    [login.html] exactly when [file] is one of the four protected pages and
    no non-empty [access_token] is stored; in every other case, and for
    every other page name, it changes nothing.  It never throws. *)
Theorem auth_guard_by_page (t : tab) (dir file : string) :
  pathname t = String.append dir (String "/"%char file) ->
  ~ In "/"%char (list_ascii_of_string file) ->
  FrontendExample.auth_guard t =
  (Normal tt,
   if existsb (String.eqb file) FrontendExample.protectedPages
      && negb (has_token (tab_browser t))
   then mk_tab (tab_browser t) (inputs t) (buttons t) (alerts t) (pathname t)
               (Some "login.html") (default_prevented t)
   else t).
Proof.
  intros Hpath Hno. destruct t as [b ins bts als pn href dp].
  cbn in Hpath. subst pn. unfold FrontendExample.auth_guard. cbn [pathname].
  destruct (pop_split_last dir file Hno) as (piece & pieces & -> & _ & ->).
  unfold FrontendExample.includes.
  destruct (existsb (String.eqb file) FrontendExample.protectedPages); [| reflexivity].
  unfold bind, lift. rewrite isLoggedIn_run. cbn.
  destruct (has_token b); reflexivity.
Qed.

Section Platform.

Variable fetch : string -> request_init -> option http_response.
Variable JSON_stringify : jsval -> jsval.
Variable ToString : jsval -> string.
Variable storage_full : gmap string string -> string -> string -> bool.
Variable JSON_parse : string -> option jsval.
Variable trim : string -> string.

(** *** The session *)


(** X12: after a [login] that got an OK response with a readable body and
    whose two writes were accepted, [isLoggedIn] is true exactly when the
    stored token string is not empty, the helpers send that string as bearer
    token, and [getCurrentUser] gives what [JSON.parse] makes of the stored
    user string ([null] when that string is empty). *)
Theorem login_opens_session
    (email password : jsval) (b : browser) (r : http_response) (data : jsval) :
  fetch (getApiUrl LOGIN)
    (mk_init (Some "POST") [("Content-Type", "application/json")]
       (Some (JSON_stringify (JObj [("email", email); ("password", password)]))))
  = Some r ->
  json r = Some data -> nullish data = false -> ok r = true ->
  storage_accepts ToString JSON_stringify storage_full data b ->
  let b' := snd (login fetch JSON_stringify ToString storage_full email password b) in
  fst (isLoggedIn b')
  = Normal (negb (String.eqb (token_string ToString data) "")) /\
  fst (getAuthHeaders b')
  = Normal [("Content-Type", "application/json");
            ("Authorization", String.append "Bearer " (token_string ToString data))] /\
  getCurrentUser JSON_parse b'
  = (if negb (String.eqb (user_string ToString JSON_stringify data) "")
     then JSON_parse (user_string ToString JSON_stringify data)
     else Some JNull).
Proof.
  intros Hres Hjson Hn Hok Hacc.
  destruct (ClientProofs.login_reports fetch JSON_stringify ToString storage_full
              email password b) as (_ & _ & _ & _ & _ & H).
  rewrite (H r data Hres Hjson Hn Hok Hacc). cbn.
  unfold getCurrentUser, getAuthHeaders, Client.bind, localStorage_getItem,
    has_token, signed_in. cbn.
  rewrite lookup_insert_eq.
  rewrite lookup_insert_ne by discriminate. rewrite lookup_insert_eq.
  repeat split.
Qed.

(** X13: when the storage takes the token but refuses the user, [login]
    reports the network error although the response was OK, and the token
    stays stored: [isLoggedIn] answers as after a successful login. *)
Theorem login_half_stored
    (email password : jsval) (b : browser) (r : http_response) (data : jsval) :
  fetch (getApiUrl LOGIN)
    (mk_init (Some "POST") [("Content-Type", "application/json")]
       (Some (JSON_stringify (JObj [("email", email); ("password", password)]))))
  = Some r ->
  json r = Some data -> nullish data = false -> ok r = true ->
  storage_full (localStorage b) "access_token" (token_string ToString data) = false ->
  storage_full (<["access_token" := token_string ToString data]> (localStorage b))
               "user" (user_string ToString JSON_stringify data) = true ->
  login fetch JSON_stringify ToString storage_full email password b
  = (Normal network_error,
     mk_browser (<["access_token" := token_string ToString data]> (localStorage b))
                (console b)) /\
  fst (isLoggedIn (snd (login fetch JSON_stringify ToString storage_full
                          email password b)))
  = Normal (negb (String.eqb (token_string ToString data) "")).
Proof.
  intros Hres Hjson Hn Hok H1 H2.
  assert (Hrun : login fetch JSON_stringify ToString storage_full email password b
                 = (Normal network_error,
                    mk_browser (<["access_token" := token_string ToString data]>
                                  (localStorage b)) (console b))).
  { destruct r as [okr body]. cbn in Hjson, Hok. subst okr body.
    unfold login, Client.try_catch, Client.bind, await_fetch, await_json.
    rewrite Hres. simpl.
    rewrite ClientProofs.get_prop_defined by exact Hn.
    unfold localStorage_setItem at 1. simpl.
    unfold token_string in H1, H2. rewrite H1. simpl.
    rewrite ClientProofs.get_prop_defined by exact Hn.
    unfold localStorage_setItem. simpl.
    unfold user_string in H2. rewrite H2. reflexivity. }
  rewrite Hrun. split; [reflexivity |].
  cbn. unfold has_token. cbn. now rewrite lookup_insert_eq.
Qed.

(** *** What the resource helpers log *)

Ltac prove_logs :=
  unfold logs, Client.try_catch, Client.bind, console_error;
  rewrite ClientProofs.getAuthHeaders_run; unfold await_fetch, await_json;
  match goal with
  | |- context [fetch ?url ?init] =>
      destruct (fetch url init) as [[[|] [data|]]|]; simpl;
      repeat split; intros; repeat (simplify_eq; simpl in * );
      try congruence; try reflexivity
  end.

(** X14: each of the eight resource helpers of [api-config.js] writes
    nothing to the console when it returns the body of an OK response, and
    otherwise exactly one [console.error] line under its own label that
    carries the cause: the rejection of [fetch], the helper's own
    ["Failed to ..."] error for a response that is not OK, or the rejection
    of [response.json()]. *)
Theorem resource_helpers_log_the_cause :
  (forall b,
      logs "Error fetching events:" "Failed to fetch events"
        (fetch (getApiUrl CALENDAR_EVENTS) (mk_init None (auth_headers b) None))
        b (getEvents fetch b)) /\
  (forall b,
      logs "Error fetching mood entries:" "Failed to fetch mood entries"
        (fetch (getApiUrl MOOD_ENTRIES) (mk_init None (auth_headers b) None))
        b (getMoodEntries fetch b)) /\
  (forall b,
      logs "Error fetching goals:" "Failed to fetch goals"
        (fetch (getApiUrl GOALS) (mk_init None (auth_headers b) None))
        b (getGoals fetch b)) /\
  (forall b,
      logs "Error fetching study sessions:" "Failed to fetch study sessions"
        (fetch (getApiUrl STUDY_SESSIONS) (mk_init None (auth_headers b) None))
        b (getStudySessions fetch b)) /\
  (forall eventData b,
      logs "Error creating event:" "Failed to create event"
        (fetch (getApiUrl CALENDAR_EVENTS)
           (mk_init (Some "POST") (auth_headers b) (Some (JSON_stringify eventData))))
        b (createEvent fetch JSON_stringify eventData b)) /\
  (forall mood moodLevel notes b,
      logs "Error creating mood entry:" "Failed to create mood entry"
        (fetch (getApiUrl MOOD_ENTRIES)
           (mk_init (Some "POST") (auth_headers b)
              (Some (JSON_stringify
                       (JObj [("mood", mood); ("mood_level", moodLevel);
                              ("notes", default_arg notes (JStr ""))])))))
        b (createMoodEntry fetch JSON_stringify mood moodLevel notes b)) /\
  (forall goalData b,
      logs "Error creating goal:" "Failed to create goal"
        (fetch (getApiUrl GOALS)
           (mk_init (Some "POST") (auth_headers b) (Some (JSON_stringify goalData))))
        b (createGoal fetch JSON_stringify goalData b)) /\
  (forall duration subject notes sessionType b,
      logs "Error creating study session:" "Failed to create study session"
        (fetch (getApiUrl STUDY_SESSIONS)
           (mk_init (Some "POST") (auth_headers b)
              (Some (JSON_stringify
                       (JObj [("duration", duration); ("subject", subject);
                              ("notes", default_arg notes (JStr ""));
                              ("session_type",
                               default_arg sessionType (JStr "pomodoro"))])))))
        b (createStudySession fetch JSON_stringify duration subject notes sessionType b)).
Proof.
  repeat match goal with |- _ /\ _ => split end; intros.
  - unfold getEvents. prove_logs.
  - unfold getMoodEntries. prove_logs.
  - unfold getGoals. prove_logs.
  - unfold getStudySessions. prove_logs.
  - unfold createEvent. prove_logs.
  - unfold createMoodEntry. prove_logs.
  - unfold createGoal. prove_logs.
  - unfold createStudySession. prove_logs.
Qed.

(** *** The further helpers of the example *)

Lemma example_getAuthHeaders_run (b : browser) :
  FrontendExample.getAuthHeaders b = (Normal (auth_headers b), b).
Proof. reflexivity. Qed.

Ltac prove_example_falls_back :=
  unfold falls_back, Client.try_catch, Client.bind, console_error;
  rewrite example_getAuthHeaders_run; unfold await_fetch, await_json;
  match goal with
  | |- context [fetch ?url ?init] =>
      destruct (fetch url init) as [[[|] [data|]]|]; simpl;
      repeat split; eauto; intros; repeat (simplify_eq; simpl in * );
      try congruence; try reflexivity
  end.

(** X15: [updateEvent], [updateGoalProgress], [getMoodAnalytics] and
    [getStudyAnalytics] of the example always return a value: the body of an
    OK response, and [null] (not [[]], also for the two analytics reads)
    when no response arrives, when the response is not OK and when its body
    cannot be read; [localStorage] is left as it was. *)
Theorem example_helpers_fall_back_to_null :
  (forall eventId eventData b,
      falls_back JNull
        (fetch (String.append FrontendExample.API_BASE_URL
                  (String.append "/calendar/events/" (ToString eventId)))
           (mk_init (Some "PUT") (auth_headers b) (Some (JSON_stringify eventData))))
        b (FrontendExample.updateEvent fetch JSON_stringify ToString eventId eventData b)) /\
  (forall goalId progress b,
      falls_back JNull
        (fetch (String.append FrontendExample.API_BASE_URL
                  (String.append "/goals/goals/"
                     (String.append (ToString goalId) "/progress")))
           (mk_init (Some "PUT") (auth_headers b)
              (Some (JSON_stringify (JObj [("progress", progress)])))))
        b (FrontendExample.updateGoalProgress fetch JSON_stringify ToString goalId progress b)) /\
  (forall b,
      falls_back JNull
        (fetch (String.append FrontendExample.API_BASE_URL "/mood/analytics")
           (mk_init None (auth_headers b) None))
        b (FrontendExample.getMoodAnalytics fetch b)) /\
  (forall b,
      falls_back JNull
        (fetch (String.append FrontendExample.API_BASE_URL "/study/analytics")
           (mk_init None (auth_headers b) None))
        b (FrontendExample.getStudyAnalytics fetch b)).
Proof.
  repeat match goal with |- _ /\ _ => split end; intros.
  - unfold FrontendExample.updateEvent. prove_example_falls_back.
  - unfold FrontendExample.updateGoalProgress. prove_example_falls_back.
  - unfold FrontendExample.getMoodAnalytics. prove_example_falls_back.
  - unfold FrontendExample.getStudyAnalytics. prove_example_falls_back.
Qed.

(** X16: [deleteEvent] never reads the body and never throws: for every
    response it returns [response.ok], so [false] for a response that is not
    OK, without logging; when [fetch] rejects it logs one line and returns
    [false]. *)
Theorem deleteEvent_returns_ok (eventId : jsval) (b : browser) :
  (forall r,
      fetch (String.append FrontendExample.API_BASE_URL
               (String.append "/calendar/events/" (ToString eventId)))
        (mk_init (Some "DELETE") (auth_headers b) None) = Some r ->
      FrontendExample.deleteEvent fetch ToString eventId b = (Normal (JBool (ok r)), b)) /\
  (fetch (String.append FrontendExample.API_BASE_URL
            (String.append "/calendar/events/" (ToString eventId)))
     (mk_init (Some "DELETE") (auth_headers b) None) = None ->
   FrontendExample.deleteEvent fetch ToString eventId b
   = (Normal (JBool false),
      mk_browser (localStorage b)
        (console b ++ [("Error deleting event:", FetchFailed)])%list)).
Proof.
  unfold FrontendExample.deleteEvent, Client.try_catch, Client.bind, console_error.
  rewrite example_getAuthHeaders_run. unfold await_fetch.
  split.
  - intros r Hres. rewrite Hres. reflexivity.
  - intros Hres. rewrite Hres. reflexivity.
Qed.

(** *** The form handlers *)

Ltac run_auth Hn :=
  repeat first
    [ rewrite ClientProofs.get_prop_defined by exact Hn
    | rewrite ClientProofs.get_prop_nullish by exact Hn
    | progress (unfold localStorage_setItem; simpl)
    | match goal with
      | |- context [if storage_full ?m ?k ?v then _ else _] =>
          destruct (storage_full m k v) eqn:?
      end ].

Ltac prove_object :=
  unfold Client.try_catch, Client.bind, await_fetch, await_json;
  match goal with
  | |- context [fetch ?url ?init] =>
      destruct (fetch url init) as [[okr [data|]]|]; simpl;
      [ destruct (nullish data) eqn:Hn; destruct okr; run_auth Hn; eauto
      | eauto
      | eauto ]
  end.

(** [signup] and [login] of the example always return an object. *)
Lemma example_signup_object (name email password : jsval) (b : browser) :
  exists fields b',
    FrontendExample.signup fetch JSON_stringify ToString storage_full
      name email password b = (Normal (JObj fields), b').
Proof. unfold FrontendExample.signup, FrontendExample.network_error. prove_object. Qed.

Lemma example_login_object (email password : jsval) (b : browser) :
  exists fields b',
    FrontendExample.login fetch JSON_stringify ToString storage_full
      email password b = (Normal (JObj fields), b').
Proof. unfold FrontendExample.login, FrontendExample.network_error. prove_object. Qed.

Lemma truthy_string (s : string) : s <> "" -> truthy (JStr s) = true.
Proof.
  intros Hs. simpl. destruct (String.eqb_spec s ""); [contradiction | reflexivity].
Qed.

(** X18: a submit with a blank field goes no further than the check: when
    the trimmed name, the trimmed email or the password is empty
    ([signup]), or the trimmed email or the password ([login]), the handler
    shows "Please fill in all fields." and returns; nothing is requested or
    stored, and the button is not touched. *)
Theorem submit_rejects_blank_field :
  (forall (t : tab) (n m p : string),
      inputs t !! "name" = Some n -> inputs t !! "email" = Some m ->
      inputs t !! "password" = Some p ->
      trim n = "" \/ trim m = "" \/ p = "" ->
      FrontendExample.signup_submit fetch JSON_stringify ToString storage_full trim t
      = (Normal tt,
         mk_tab (tab_browser t) (inputs t) (buttons t)
                (alerts t ++ [JStr "Please fill in all fields."])%list
                (pathname t) (href_assigned t) true)) /\
  (forall (t : tab) (m p : string),
      inputs t !! "email" = Some m -> inputs t !! "password" = Some p ->
      trim m = "" \/ p = "" ->
      FrontendExample.login_submit fetch JSON_stringify ToString storage_full trim t
      = (Normal tt,
         mk_tab (tab_browser t) (inputs t) (buttons t)
                (alerts t ++ [JStr "Please fill in all fields."])%list
                (pathname t) (href_assigned t) true)).
Proof.
  split.
  - intros t n m p Hn Hm Hp Hblank.
    unfold FrontendExample.signup_submit, bind, preventDefault, element_value.
    cbn. rewrite Hn. cbn. rewrite Hm. cbn. rewrite Hp. cbn.
    assert (Hc : negb (negb (String.eqb (trim n) ""))
                 || negb (negb (String.eqb (trim m) ""))
                 || negb (negb (String.eqb p "")) = true).
    { destruct Hblank as [-> | [-> | ->]]; cbn; rewrite ?orb_true_r; reflexivity. }
    rewrite Hc. reflexivity.
  - intros t m p Hm Hp Hblank.
    unfold FrontendExample.login_submit, bind, preventDefault, element_value.
    cbn. rewrite Hm. cbn. rewrite Hp. cbn.
    assert (Hc : negb (negb (String.eqb (trim m) ""))
                 || negb (negb (String.eqb p "")) = true).
    { destruct Hblank as [-> | ->]; cbn; rewrite ?orb_true_r; reflexivity. }
    rewrite Hc. reflexivity.
Qed.

Lemma bind_ok {A B : Type} (m : T A) (k : A -> T B) (t t1 : tab) (a : A) :
  m t = (Normal a, t1) -> bind m k t = k a t1.
Proof. intros H. unfold bind. now rewrite H. Qed.

Lemma element_value_run (id v : string) (t : tab) :
  inputs t !! id = Some v -> element_value id t = (Normal v, t).
Proof. intros H. unfold element_value. now rewrite H. Qed.

Lemma get_textContent_run (sel : string) (btn : button) (t : tab) :
  buttons t !! sel = Some btn -> get_textContent sel t = (Normal (textContent btn), t).
Proof. intros H. unfold get_textContent. now rewrite H. Qed.

Lemma update_button_run (f : button -> button) (sel : string) (btn : button) (t : tab) :
  buttons t !! sel = Some btn ->
  update_button f sel t
  = (Normal tt,
     mk_tab (tab_browser t) (inputs t) (<[sel := f btn]> (buttons t)) (alerts t)
            (pathname t) (href_assigned t) (default_prevented t)).
Proof. intros H. unfold update_button. now rewrite H. Qed.

Lemma lift_run {A : Type} (m : M A) (c : completion A) (b' : browser) (t : tab) :
  m (tab_browser t) = (c, b') -> lift m t = (c, with_browser b' t).
Proof. intros H. unfold lift. now rewrite H. Qed.

(** The part both handlers share once the fields are read and checked: the
    button is switched, the request made, its result acted on, the button
    switched back. *)
Lemma guarded_request_run
    (call : M jsval) (sel busy fallback : string) (btn : button)
    (fields : list (string * jsval)) (b' : browser) (t : tab) :
  buttons t !! sel = Some btn ->
  call (tab_browser t) = (Normal (JObj fields), b') ->
  bind (get_textContent sel) (fun originalText =>
  bind (set_textContent sel busy) (fun _ =>
  bind (set_disabled sel true) (fun _ =>
  finally
    (try_catch
       (bind (lift call) (fun result =>
        bind (lift (get_prop result "success")) (fun success =>
        if truthy success then set_href "dashboard.html"
        else
          bind (lift (get_prop result "error")) (fun error =>
          alert (if truthy error then error else JStr fallback)))))
       (fun _ => alert (JStr "An error occurred. Please try again.")))
    (bind (set_textContent sel originalText) (fun _ =>
     set_disabled sel false))))) t
  = (Normal tt,
     mk_tab b' (inputs t)
            (<[sel := mk_button (textContent btn) false]> (buttons t))
            (if truthy (prop (JObj fields) "success") then alerts t
             else (alerts t ++ [if truthy (prop (JObj fields) "error")
                                then prop (JObj fields) "error"
                                else JStr fallback])%list)
            (pathname t)
            (if truthy (prop (JObj fields) "success") then Some "dashboard.html"
             else href_assigned t)
            (default_prevented t)).
Proof.
  intros Hbtn Hrun.
  rewrite (bind_ok _ _ _ _ _ (get_textContent_run sel btn t Hbtn)).
  unfold set_textContent at 1.
  rewrite (bind_ok _ _ _ _ _ (update_button_run _ sel btn t Hbtn)).
  unfold set_disabled at 1.
  erewrite bind_ok by (apply update_button_run; cbn; apply lookup_insert_eq).
  cbn [textContent disabled tab_browser inputs buttons alerts pathname
       href_assigned default_prevented].
  rewrite insert_insert_eq.
  set (t2 := mk_tab _ _ _ _ _ _ _).
  assert (Hbody :
    try_catch
       (bind (lift call) (fun result =>
        bind (lift (get_prop result "success")) (fun success =>
        if truthy success then set_href "dashboard.html"
        else
          bind (lift (get_prop result "error")) (fun error =>
          alert (if truthy error then error else JStr fallback)))))
       (fun _ => alert (JStr "An error occurred. Please try again.")) t2
    = (Normal tt,
       mk_tab b' (inputs t2) (buttons t2)
              (if truthy (prop (JObj fields) "success") then alerts t
               else (alerts t ++ [if truthy (prop (JObj fields) "error")
                                  then prop (JObj fields) "error"
                                  else JStr fallback])%list)
              (pathname t)
              (if truthy (prop (JObj fields) "success") then Some "dashboard.html"
               else href_assigned t)
              (default_prevented t))).
  { unfold try_catch.
    rewrite (bind_ok _ _ _ _ _ (lift_run call _ b' t2 Hrun)).
    erewrite bind_ok by (apply lift_run; reflexivity).
    change (match assoc "success" fields with Some x => x | None => JUndefined end)
      with (prop (JObj fields) "success").
    destruct (truthy (prop (JObj fields) "success")); [reflexivity |].
    erewrite bind_ok by (apply lift_run; reflexivity).
    reflexivity. }
  unfold finally. rewrite Hbody.
  unfold set_textContent, set_disabled.
  erewrite bind_ok by (apply update_button_run; cbn; apply lookup_insert_eq).
  erewrite update_button_run by (cbn; apply lookup_insert_eq).
  cbn. rewrite !insert_insert_eq. reflexivity.
Qed.

Lemma signup_submit_run (t : tab) (n m p : string) (btn : button) :
  inputs t !! "name" = Some n -> inputs t !! "email" = Some m ->
  inputs t !! "password" = Some p ->
  trim n <> "" -> trim m <> "" -> p <> "" ->
  buttons t !! ".signup-btn" = Some btn ->
  exists result b',
    FrontendExample.signup fetch JSON_stringify ToString storage_full
      (JStr (trim n)) (JStr (trim m)) (JStr p) (tab_browser t)
    = (Normal result, b') /\
    FrontendExample.signup_submit fetch JSON_stringify ToString storage_full trim t
    = (Normal tt,
       submitted ".signup-btn" btn b' result "Signup failed. Please try again." t).
Proof.
  intros Hn Hm Hp Hn' Hm' Hp' Hbtn.
  destruct (example_signup_object (JStr (trim n)) (JStr (trim m)) (JStr p)
              (tab_browser t)) as (fields & b' & Hrun).
  exists (JObj fields), b'. split; [exact Hrun |].
  unfold FrontendExample.signup_submit.
  erewrite bind_ok by reflexivity.
  erewrite bind_ok by (apply element_value_run; exact Hn).
  erewrite bind_ok by (apply element_value_run; exact Hm).
  erewrite bind_ok by (apply element_value_run; exact Hp).
  rewrite !truthy_string by assumption. cbn [negb orb].
  erewrite guarded_request_run; [reflexivity | exact Hbtn | exact Hrun].
Qed.

(** X19: a [signup] submit that passes the check always ends normally, for
    every answer of the backend.  The button, set to "Creating Account..."
    and disabled during the request, gets its text back and is enabled; the
    storage is what [AuthAPI.signup] made of it; and the handler either goes
    to [dashboard.html] without an alert (the result has a truthy
    [success]) or shows exactly one alert and stays: the result's [error]
    when it is truthy, "Signup failed. Please try again." otherwise. *)
Theorem signup_submit_outcome (t : tab) (n m p : string) (btn : button) :
  inputs t !! "name" = Some n -> inputs t !! "email" = Some m ->
  inputs t !! "password" = Some p ->
  trim n <> "" -> trim m <> "" -> p <> "" ->
  buttons t !! ".signup-btn" = Some btn ->
  exists result b',
    FrontendExample.signup fetch JSON_stringify ToString storage_full
      (JStr (trim n)) (JStr (trim m)) (JStr p) (tab_browser t)
    = (Normal result, b') /\
    FrontendExample.signup_submit fetch JSON_stringify ToString storage_full trim t
    = (Normal tt,
       submitted ".signup-btn" btn b' result "Signup failed. Please try again." t).
Proof. exact (signup_submit_run t n m p btn). Qed.

Lemma login_submit_run (t : tab) (m p : string) (btn : button) :
  inputs t !! "email" = Some m -> inputs t !! "password" = Some p ->
  trim m <> "" -> p <> "" ->
  buttons t !! ".login-btn" = Some btn ->
  exists result b',
    FrontendExample.login fetch JSON_stringify ToString storage_full
      (JStr (trim m)) (JStr p) (tab_browser t)
    = (Normal result, b') /\
    FrontendExample.login_submit fetch JSON_stringify ToString storage_full trim t
    = (Normal tt,
       submitted ".login-btn" btn b' result
         "Login failed. Please check your credentials." t).
Proof.
  intros Hm Hp Hm' Hp' Hbtn.
  destruct (example_login_object (JStr (trim m)) (JStr p) (tab_browser t))
    as (fields & b' & Hrun).
  exists (JObj fields), b'. split; [exact Hrun |].
  unfold FrontendExample.login_submit.
  erewrite bind_ok by reflexivity.
  erewrite bind_ok by (apply element_value_run; exact Hm).
  erewrite bind_ok by (apply element_value_run; exact Hp).
  rewrite !truthy_string by assumption. cbn [negb orb].
  erewrite guarded_request_run; [reflexivity | exact Hbtn | exact Hrun].
Qed.

(** X20: the same for a [login] submit, with the button text
    "Signing In..." during the request and the fallback alert
    "Login failed. Please check your credentials.". *)
Theorem login_submit_outcome (t : tab) (m p : string) (btn : button) :
  inputs t !! "email" = Some m -> inputs t !! "password" = Some p ->
  trim m <> "" -> p <> "" ->
  buttons t !! ".login-btn" = Some btn ->
  exists result b',
    FrontendExample.login fetch JSON_stringify ToString storage_full
      (JStr (trim m)) (JStr p) (tab_browser t)
    = (Normal result, b') /\
    FrontendExample.login_submit fetch JSON_stringify ToString storage_full trim t
    = (Normal tt,
       submitted ".login-btn" btn b' result
         "Login failed. Please check your credentials." t).
Proof. exact (login_submit_run t m p btn). Qed.

(** [login] of the example, by what [fetch] gave it. *)
Lemma example_login_cases (email password : jsval) (b : browser) :
  let res :=
    fetch (String.append FrontendExample.API_BASE_URL "/auth/login")
      (mk_init (Some "POST") [("Content-Type", "application/json")]
         (Some (JSON_stringify (JObj [("email", email); ("password", password)])))) in
  let out :=
    FrontendExample.login fetch JSON_stringify ToString storage_full email password b in
  (res = None -> out = (Normal FrontendExample.network_error, b)) /\
  (forall r, res = Some r -> json r = None ->
             out = (Normal FrontendExample.network_error, b)) /\
  (forall r data, res = Some r -> json r = Some data -> nullish data = true ->
                  out = (Normal FrontendExample.network_error, b)) /\
  (forall r data, res = Some r -> json r = Some data -> nullish data = false ->
                  ok r = false ->
                  out = (Normal (failure_of (prop data "error")), b)) /\
  (forall r data, res = Some r -> json r = Some data -> nullish data = false ->
                  ok r = true ->
                  storage_accepts ToString JSON_stringify storage_full data b ->
                  out = (Normal (success_of data),
                         signed_in ToString JSON_stringify data b)) /\
  (forall r data, res = Some r -> json r = Some data -> nullish data = false ->
                  ok r = true ->
                  storage_full (localStorage b) "access_token"
                    (token_string ToString data) = true ->
                  out = (Normal FrontendExample.network_error, b)) /\
  (forall r data, res = Some r -> json r = Some data -> nullish data = false ->
                  ok r = true ->
                  storage_full (localStorage b) "access_token"
                    (token_string ToString data) = false ->
                  storage_full
                    (<["access_token" := token_string ToString data]> (localStorage b))
                    "user" (user_string ToString JSON_stringify data) = true ->
                  out = (Normal FrontendExample.network_error,
                         mk_browser
                           (<["access_token" := token_string ToString data]>
                              (localStorage b))
                           (console b))).
Proof.
  cbv zeta. unfold FrontendExample.login, Client.try_catch, Client.bind,
    await_fetch, await_json.
  match goal with
  | |- context [fetch ?url ?init] =>
      destruct (fetch url init) as [[okr [data|]]|]; simpl
  end.
  - destruct (nullish data) eqn:Hn; destruct okr; run_auth Hn;
      repeat split; intros; repeat (simplify_eq; simpl in * );
      unfold token_string, user_string in *;
      try congruence; try reflexivity;
      try match goal with
          | H : storage_accepts _ _ _ _ _ |- _ =>
              destruct H; unfold token_string, user_string in *; congruence
          end.
  - repeat split; intros; simplify_eq; simpl in *; congruence.
  - repeat split; intros; simplify_eq.
Qed.

(** X21: what the visitor of the login page sees, by the answer of the
    backend, once the fields pass the check.  The alert "Network error" and
    no move when no response arrives, when the body of the response cannot
    be read, when the body is [null] or [undefined], and when the storage
    refuses a write of an OK response; the storage is untouched in these
    cases, except that the token stays stored after a refused second write.
    For a response that is not OK and whose body is read as another value:
    one alert with the [error] of the body, or
    "Login failed. Please check your credentials." when that is missing or
    falsy, and no move.  For an OK response whose body is read as another
    value and whose two writes are accepted: token and user are stored, the
    page moves to [dashboard.html] and no alert is shown.  In every case
    the button has its text back and is enabled. *)
Theorem login_submit_by_response (t : tab) (m p : string) (btn : button) :
  inputs t !! "email" = Some m -> inputs t !! "password" = Some p ->
  trim m <> "" -> p <> "" ->
  buttons t !! ".login-btn" = Some btn ->
  let res :=
    fetch (String.append FrontendExample.API_BASE_URL "/auth/login")
      (mk_init (Some "POST") [("Content-Type", "application/json")]
         (Some (JSON_stringify
                  (JObj [("email", JStr (trim m)); ("password", JStr p)])))) in
  let out :=
    FrontendExample.login_submit fetch JSON_stringify ToString storage_full trim t in
  let restored := <[".login-btn" := mk_button (textContent btn) false]> (buttons t) in
  let network_alert (b' : browser) :=
    (Normal tt,
     mk_tab b' (inputs t) restored (alerts t ++ [JStr "Network error"])%list
            (pathname t) (href_assigned t) true) in
  (res = None -> out = network_alert (tab_browser t)) /\
  (forall r, res = Some r -> json r = None -> out = network_alert (tab_browser t)) /\
  (forall r data, res = Some r -> json r = Some data -> nullish data = true ->
                  out = network_alert (tab_browser t)) /\
  (forall r data, res = Some r -> json r = Some data -> nullish data = false ->
                  ok r = false ->
                  out = (Normal tt,
                         mk_tab (tab_browser t) (inputs t) restored
                                (alerts t ++
                                   [if truthy (prop data "error")
                                    then prop data "error"
                                    else JStr "Login failed. Please check your credentials."])%list
                                (pathname t) (href_assigned t) true)) /\
  (forall r data, res = Some r -> json r = Some data -> nullish data = false ->
                  ok r = true ->
                  storage_accepts ToString JSON_stringify storage_full data
                    (tab_browser t) ->
                  out = (Normal tt,
                         mk_tab (signed_in ToString JSON_stringify data (tab_browser t))
                                (inputs t) restored (alerts t) (pathname t)
                                (Some "dashboard.html") true)) /\
  (forall r data, res = Some r -> json r = Some data -> nullish data = false ->
                  ok r = true ->
                  storage_full (localStorage (tab_browser t)) "access_token"
                    (token_string ToString data) = true ->
                  out = network_alert (tab_browser t)) /\
  (forall r data, res = Some r -> json r = Some data -> nullish data = false ->
                  ok r = true ->
                  storage_full (localStorage (tab_browser t)) "access_token"
                    (token_string ToString data) = false ->
                  storage_full
                    (<["access_token" := token_string ToString data]>
                       (localStorage (tab_browser t)))
                    "user" (user_string ToString JSON_stringify data) = true ->
                  out = network_alert
                          (mk_browser
                             (<["access_token" := token_string ToString data]>
                                (localStorage (tab_browser t)))
                             (console (tab_browser t)))).
Proof.
  intros Hm Hp Hm' Hp' Hbtn. cbv zeta.
  destruct (login_submit_run t m p btn Hm Hp Hm' Hp' Hbtn)
    as (result & b' & Hrun & ->).
  destruct (example_login_cases (JStr (trim m)) (JStr p) (tab_browser t))
    as (Hnone & Hunread & Hnull & Hrefused & Haccepted & Hfull1 & Hfull2).
  repeat match goal with |- _ /\ _ => split end.
  - intros Hres. rewrite (Hnone Hres) in Hrun. injection Hrun as <- <-.
    reflexivity.
  - intros r Hres Hjson.
    rewrite (Hunread r Hres Hjson) in Hrun. injection Hrun as <- <-.
    reflexivity.
  - intros r data Hres Hjson Hn.
    rewrite (Hnull r data Hres Hjson Hn) in Hrun. injection Hrun as <- <-.
    reflexivity.
  - intros r data Hres Hjson Hn Hok.
    rewrite (Hrefused r data Hres Hjson Hn Hok) in Hrun. injection Hrun as <- <-.
    reflexivity.
  - intros r data Hres Hjson Hn Hok Hacc.
    rewrite (Haccepted r data Hres Hjson Hn Hok Hacc) in Hrun.
    injection Hrun as <- <-. reflexivity.
  - intros r data Hres Hjson Hn Hok H1.
    rewrite (Hfull1 r data Hres Hjson Hn Hok H1) in Hrun.
    injection Hrun as <- <-. reflexivity.
  - intros r data Hres Hjson Hn Hok H1 H2.
    rewrite (Hfull2 r data Hres Hjson Hn Hok H1 H2) in Hrun.
    injection Hrun as <- <-. reflexivity.
Qed.

End Platform.

Lemma login_opens_session_witness :
  storage_accepts ClientSamples.sample_ToString ClientSamples.sample_stringify
    ClientSamples.roomy ClientSamples.accepted_body ClientSamples.empty_page /\
  fst (isLoggedIn
         (snd (login ClientSamples.fetch_accepting ClientSamples.sample_stringify
                 ClientSamples.sample_ToString ClientSamples.roomy
                 (JStr "alice@example.com") (JStr "Abcdefg1")
                 ClientSamples.empty_page)))
  = Normal true /\
  getCurrentUser MoreSamples.sample_parse
    (snd (login ClientSamples.fetch_accepting ClientSamples.sample_stringify
            ClientSamples.sample_ToString ClientSamples.roomy
            (JStr "alice@example.com") (JStr "Abcdefg1")
            ClientSamples.empty_page))
  = Some (JStr "alice").
Proof.
  assert (Hacc : storage_accepts ClientSamples.sample_ToString
                   ClientSamples.sample_stringify ClientSamples.roomy
                   ClientSamples.accepted_body ClientSamples.empty_page)
    by (split; reflexivity).
  destruct (login_opens_session ClientSamples.fetch_accepting
              ClientSamples.sample_stringify ClientSamples.sample_ToString
              ClientSamples.roomy MoreSamples.sample_parse
              (JStr "alice@example.com") (JStr "Abcdefg1") ClientSamples.empty_page
              (mk_http true (Some ClientSamples.accepted_body))
              ClientSamples.accepted_body eq_refl eq_refl eq_refl eq_refl Hacc)
    as (H1 & _ & H3).
  split; [exact Hacc |]. split; [exact H1 | exact H3].
Defined.

Lemma login_half_stored_witness :
  MoreSamples.tight (localStorage ClientSamples.empty_page) "access_token" "jwt-1"
  = false /\
  MoreSamples.tight (<["access_token" := "jwt-1"]> (localStorage ClientSamples.empty_page))
    "user" "json:alice" = true /\
  login ClientSamples.fetch_accepting ClientSamples.sample_stringify
    ClientSamples.sample_ToString MoreSamples.tight
    (JStr "alice@example.com") (JStr "Abcdefg1") ClientSamples.empty_page
  = (Normal network_error, mk_browser (<["access_token" := "jwt-1"]> ∅) []).
Proof.
  split; [reflexivity |]. split; [reflexivity |].
  apply (login_half_stored ClientSamples.fetch_accepting
           ClientSamples.sample_stringify ClientSamples.sample_ToString
           MoreSamples.tight (JStr "alice@example.com") (JStr "Abcdefg1")
           ClientSamples.empty_page
           (mk_http true (Some ClientSamples.accepted_body))
           ClientSamples.accepted_body);
    reflexivity.
Defined.

Lemma auth_guard_by_page_witness :
  pathname MoreSamples.dashboard_tab
  = String.append "/app" (String "/"%char "dashboard.html") /\
  FrontendExample.auth_guard MoreSamples.dashboard_tab
  = (Normal tt,
     mk_tab ClientSamples.empty_page ∅ ∅ [] "/app/dashboard.html"
            (Some "login.html") false).
Proof.
  split; [reflexivity |].
  apply (auth_guard_by_page MoreSamples.dashboard_tab "/app" "dashboard.html");
    [reflexivity |].
  cbn. intuition discriminate.
Defined.

Lemma signup_submit_outcome_witness :
  MoreSamples.sample_trim "Alice" <> "" /\
  FrontendExample.signup_submit ClientSamples.fetch_down
    ClientSamples.sample_stringify ClientSamples.sample_ToString
    ClientSamples.roomy MoreSamples.sample_trim MoreSamples.signup_tab
  = (Normal tt,
     mk_tab ClientSamples.empty_page (inputs MoreSamples.signup_tab)
            (<[".signup-btn" := MoreSamples.signup_button]>
               (buttons MoreSamples.signup_tab))
            [JStr "Network error"] "/signup.html" None true).
Proof.
  split; [vm_compute; discriminate |].
  assert (Hname : MoreSamples.sample_trim "Alice" <> "")
    by (vm_compute; discriminate).
  assert (Hemail : MoreSamples.sample_trim "alice@example.com" <> "")
    by (vm_compute; discriminate).
  assert (Hpw : "Abcdefg1" <> "") by discriminate.
  destruct (signup_submit_outcome ClientSamples.fetch_down
              ClientSamples.sample_stringify ClientSamples.sample_ToString
              ClientSamples.roomy MoreSamples.sample_trim MoreSamples.signup_tab
              "Alice" "alice@example.com" "Abcdefg1" MoreSamples.signup_button
              eq_refl eq_refl eq_refl Hname Hemail Hpw eq_refl)
    as (result & b' & Hrun & Hout).
  injection Hrun as <- <-. exact Hout.
Defined.

Lemma login_submit_outcome_witness :
  MoreSamples.sample_trim " alice@example.com " = "alice@example.com" /\
  FrontendExample.login_submit ClientSamples.fetch_refusing
    ClientSamples.sample_stringify ClientSamples.sample_ToString
    ClientSamples.roomy MoreSamples.sample_trim MoreSamples.login_tab
  = (Normal tt,
     mk_tab ClientSamples.empty_page (inputs MoreSamples.login_tab)
            (<[".login-btn" := MoreSamples.login_button]>
               (buttons MoreSamples.login_tab))
            [JStr "Invalid credentials"] "/login.html" None true).
Proof.
  split; [reflexivity |].
  assert (Hemail : MoreSamples.sample_trim " alice@example.com " <> "")
    by (vm_compute; discriminate).
  assert (Hpw : "Abcdefg1" <> "") by discriminate.
  destruct (login_submit_outcome ClientSamples.fetch_refusing
              ClientSamples.sample_stringify ClientSamples.sample_ToString
              ClientSamples.roomy MoreSamples.sample_trim MoreSamples.login_tab
              " alice@example.com " "Abcdefg1" MoreSamples.login_button
              eq_refl eq_refl Hemail Hpw eq_refl)
    as (result & b' & Hrun & Hout).
  injection Hrun as <- <-. exact Hout.
Defined.

Lemma login_submit_by_response_witness :
  storage_accepts ClientSamples.sample_ToString ClientSamples.sample_stringify
    ClientSamples.roomy ClientSamples.accepted_body ClientSamples.empty_page /\
  FrontendExample.login_submit ClientSamples.fetch_accepting
    ClientSamples.sample_stringify ClientSamples.sample_ToString
    ClientSamples.roomy MoreSamples.sample_trim MoreSamples.login_tab
  = (Normal tt,
     mk_tab (mk_browser (<["user" := "json:alice"]> (<["access_token" := "jwt-1"]> ∅)) [])
            (inputs MoreSamples.login_tab)
            (<[".login-btn" := MoreSamples.login_button]>
               (buttons MoreSamples.login_tab))
            [] "/login.html" (Some "dashboard.html") true) /\
  FrontendExample.login_submit ClientSamples.fetch_bad_gateway
    ClientSamples.sample_stringify ClientSamples.sample_ToString
    ClientSamples.roomy MoreSamples.sample_trim MoreSamples.login_tab
  = (Normal tt,
     mk_tab ClientSamples.empty_page (inputs MoreSamples.login_tab)
            (<[".login-btn" := MoreSamples.login_button]>
               (buttons MoreSamples.login_tab))
            [JStr "Network error"] "/login.html" None true).
Proof.
  assert (Hacc : storage_accepts ClientSamples.sample_ToString
                   ClientSamples.sample_stringify ClientSamples.roomy
                   ClientSamples.accepted_body ClientSamples.empty_page)
    by (split; reflexivity).
  assert (Hemail : MoreSamples.sample_trim " alice@example.com " <> "")
    by (vm_compute; discriminate).
  assert (Hpw : "Abcdefg1" <> "") by discriminate.
  split; [exact Hacc |]. split.
  - destruct (login_submit_by_response ClientSamples.fetch_accepting
                ClientSamples.sample_stringify ClientSamples.sample_ToString
                ClientSamples.roomy MoreSamples.sample_trim MoreSamples.login_tab
                " alice@example.com " "Abcdefg1" MoreSamples.login_button
                eq_refl eq_refl Hemail Hpw eq_refl)
      as (_ & _ & _ & _ & H & _).
    exact (H (mk_http true (Some ClientSamples.accepted_body))
             ClientSamples.accepted_body eq_refl eq_refl eq_refl eq_refl Hacc).
  - destruct (login_submit_by_response ClientSamples.fetch_bad_gateway
                ClientSamples.sample_stringify ClientSamples.sample_ToString
                ClientSamples.roomy MoreSamples.sample_trim MoreSamples.login_tab
                " alice@example.com " "Abcdefg1" MoreSamples.login_button
                eq_refl eq_refl Hemail Hpw eq_refl)
      as (_ & H & _).
    exact (H (mk_http false None) eq_refl eq_refl).
Defined.

End ClientExtras.
